(** * Verification of the Hegemon debate controller and its HITL layer

    Shallow embedding of the Python sources:
    - [hegemon/graph.py], [hegemon/graph_hitl_v2.py], [hegemon/graph_hitl_v3.py]
      (routing after the evaluation stage);
    - [hegemon/hitl/feedback.py] (revision tracking);
    - [hegemon/hitl/checkpoints.py], [graph_hitl_v3.create_checkpoint_node]
      (checkpoint nodes, snapshots);
    - [hegemon/hitl/schemas.py], [hegemon/hitl/models.py] (Human Feedback);
    - [hegemon/hitl/effectiveness.py] (structural and keyword scores);
    - [hegemon/hitl/contradiction_detector.py].

    Python floats are modelled as rationals [Q]; Python [int] as [Z];
    Python [str] as [string] over ASCII characters. *)

From Stdlib Require Import QArith Qminmax Qround Lqa ZArith Lia Ascii String Relation_Operators.
From stdpp Require Import base gmap strings list pretty.

Local Open Scope Z_scope.
Set Warnings "-register-all -abstract-large-number".


(* ------------------------------------------------------------------ *)
(** ** Routing after the evaluation (Gubernator) stage *)
(* ------------------------------------------------------------------ *)

Module Routing.

(** [hegemon/config/settings.py], class [DebateConfig]. *)
Record DebateConfig := mkDebateConfig {
  consensus_threshold : Q;
  max_cycles : Z;
  min_cycles : Z
}.

(** The three node names [graph_hitl_v2.should_continue] and
    [graph_hitl_v3.should_continue_after_gubernator] can return. *)
Inductive Route :=
| checkpoint_pre_synthesis
| katalizator
| syntezator.

(** [graph_hitl_v2.should_continue]: hard cap first, then threshold
    together with [min_cycles]. *)
Definition should_continue (settings : DebateConfig) (consensus : Q) (cycle : Z) : Route :=
  if cycle >=? max_cycles settings then checkpoint_pre_synthesis
  else if Qle_bool (consensus_threshold settings) consensus then
    if cycle >=? min_cycles settings then checkpoint_pre_synthesis
    else katalizator
  else katalizator.

(** [graph.py] / [graph_hitl_v2.py]: [increment_cycle]. *)
Definition increment_cycle (cycle : Z) : Z := cycle + 1.

(** The debate loop of [create_hegemon_graph_hitl_v2]: at cycle [cycle] the
    Gubernator writes the score [scores cycle]; [should_continue] decides;
    on [katalizator] the edge goes through [increment_cycle].  The result is
    the cycle at which the pre-synthesis checkpoint is selected; [fuel]
    bounds the number of evaluations. *)
Fixpoint run_v2 (fuel : nat) (settings : DebateConfig) (scores : Z -> Q) (cycle : Z)
  : option Z :=
  match fuel with
  | O => None
  | S f =>
      match should_continue settings (scores cycle) cycle with
      | katalizator => run_v2 f settings scores (increment_cycle cycle)
      | _ => Some cycle
      end
  end.

(** [graph.should_continue_debate]: local constants [consensus_threshold = 0.7]
    and [max_cycles = 5]; the configuration is not read. *)
Inductive Decision := continue_debate | synthesize.

Definition graph_consensus_threshold : Q := 7 # 10.
Definition graph_max_cycles : Z := 5.

Definition should_continue_debate (current_score : Q) (current_cycle : Z) : Decision :=
  if current_cycle >=? graph_max_cycles then synthesize
  else if Qle_bool graph_consensus_threshold current_score then synthesize
  else continue_debate.

Fixpoint run_v1 (fuel : nat) (scores : Z -> Q) (cycle : Z) : option Z :=
  match fuel with
  | O => None
  | S f =>
      match should_continue_debate (scores cycle) cycle with
      | continue_debate => run_v1 f scores (increment_cycle cycle)
      | synthesize => Some cycle
      end
  end.

(** [graph_hitl_v3.should_continue_after_gubernator] reads these fields of
    [DebateStateHITL]; [last_feedback_reject] is
    [state.human_feedback and state.human_feedback[-1].decision == REJECT]. *)
Record HITLRoutingState := mkHITLRoutingState {
  last_feedback_reject : bool;
  revision_count : Z;
  max_revisions_per_cycle : Z;
  current_consensus_score : Q;
  cycle_count : Z
}.

Definition should_continue_after_gubernator
    (settings : DebateConfig) (state : HITLRoutingState) : Route :=
  if last_feedback_reject state then syntezator
  else if revision_count state >=? max_revisions_per_cycle state then checkpoint_pre_synthesis
  else if Qle_bool (consensus_threshold settings) (current_consensus_score state)
  then checkpoint_pre_synthesis
  else if cycle_count state >=? max_cycles settings then checkpoint_pre_synthesis
  else katalizator.

End Routing.

(* ------------------------------------------------------------------ *)
(** ** Revision tracking ([hegemon/hitl/feedback.py]) *)
(* ------------------------------------------------------------------ *)

Module Revision.

Definition MAX_REVISIONS_PER_CHECKPOINT : Z := 3.

(** [hegemon/hitl/exceptions.py], [MaxRevisionsExceededError]. *)
Record MaxRevisionsExceededError := mkMaxRevisionsExceededError {
  err_checkpoint : string;
  err_current_count : Z;
  err_max_allowed : Z
}.

(** [track_revision(state, checkpoint)]; the argument is
    [state.get("revision_count_per_checkpoint")] ([None] when the key is
    absent).  [inl] is the raised error, [inr] the returned update
    [{"revision_count_per_checkpoint": {checkpoint: new_count}}]. *)
Definition track_revision (counts : option (gmap string Z)) (checkpoint : string)
  : MaxRevisionsExceededError + gmap string Z :=
  let current_counts := default ∅ counts in
  let current_count := default 0 (current_counts !! checkpoint) in
  if current_count >=? MAX_REVISIONS_PER_CHECKPOINT then
    inl (mkMaxRevisionsExceededError checkpoint current_count MAX_REVISIONS_PER_CHECKPOINT)
  else inr {[ checkpoint := current_count + 1 ]}.

(** [revision_count_per_checkpoint] is a plain [dict] field of the
    [DebateState] TypedDict: LangGraph's default channel keeps the last
    value written, so the returned dict replaces the stored one. *)
Definition merge_revision_counts (old new : gmap string Z) : gmap string Z := new.

(** [n] successive calls for the same checkpoint, each successful update
    merged into the state before the next call; the result lists what each
    call returned, stopping at the first error. *)
Fixpoint track_repeatedly (n : nat) (counts : option (gmap string Z)) (checkpoint : string)
  : list (MaxRevisionsExceededError + gmap string Z) :=
  match n with
  | O => []
  | S k =>
      match track_revision counts checkpoint with
      | inl e => [inl e]
      | inr upd =>
          inr upd :: track_repeatedly k
                        (Some (merge_revision_counts (default ∅ counts) upd)) checkpoint
      end
  end.

End Revision.

(* ------------------------------------------------------------------ *)
(** ** Phase 2.1 checkpoint nodes ([hegemon/hitl/checkpoints.py]) *)
(* ------------------------------------------------------------------ *)

Module Checkpoints21.

(** Python list objects live in a heap; [loc] is an object identity.
    Only the [contributions] list is modelled as a heap object. *)
Abbreviation loc := positive.

(** [hegemon/schemas.py], [AgentContribution] (fields used here). *)
Record AgentContribution := mkAgentContribution {
  agent_id : string;
  content : string;
  contrib_type : string;
  contrib_cycle : Z;
  rationale : string
}.

Abbreviation heap := (gmap loc (list AgentContribution)).

(** [hegemon/schemas.py], the [DebateState] TypedDict.  The snapshot map
    holds whole state dicts, hence the nested inductive. *)
Inductive DebateState := mkDebateState {
  mission : string;
  contributions : loc;
  current_consensus_score : Q;
  cycle_count : Z;
  final_plan : option string;
  intervention_mode : string;
  current_checkpoint : option string;
  human_feedback_history : list string;
  paused_at : option string;
  revision_count_per_checkpoint : gmap string Z;
  checkpoint_snapshots : list (string * DebateState)
}.

Inductive CheckpointKind := post_thesis | post_evaluation | pre_synthesis.

(** [CHECKPOINT_NAMES[checkpoint_type].format(cycle)]. *)
Definition checkpoint_prefix (k : CheckpointKind) : string :=
  match k with
  | post_thesis => "post_thesis_cycle_"
  | post_evaluation => "post_evaluation_cycle_"
  | pre_synthesis => "pre_synthesis_cycle_"
  end.

Definition checkpoint_id (k : CheckpointKind) (cycle : Z) : string :=
  checkpoint_prefix k +:+ pretty cycle.

(** The partial update a LangGraph node returns: [None] = key absent. *)
Record Update := mkUpdate {
  upd_contributions : option (list AgentContribution);
  upd_current_checkpoint : option (option string);
  upd_paused_at : option (option string);
  upd_checkpoint_snapshots : option (list (string * DebateState))
}.

Definition empty_update : Update := mkUpdate None None None None.

(** Pydantic validation of [CheckpointMetadata]: [cycle_number >= 1],
    [intervention_mode] one of the three literals (checkpoint id length
    and agent name always pass). *)
Definition metadata_valid (cycle : Z) (mode : string) : bool :=
  (1 <=? cycle) &&
  (bool_decide (mode = "observer") || bool_decide (mode = "reviewer")
   || bool_decide (mode = "collaborator")).

(** [_create_checkpoint_node(checkpoint_type, ...)(state)]; [now] is
    [datetime.now(timezone.utc).isoformat()]; [inl] is [CheckpointError].
    The snapshot [dict(state)] is a shallow copy: a new dict with the same
    field values, so the [contributions] list object is shared. *)
Definition checkpoint_node (k : CheckpointKind) (now : string) (state : DebateState)
  : string + Update :=
  let mode := intervention_mode state in
  if bool_decide (mode = "observer") then inr empty_update
  else
    let cycle := cycle_count state in
    let cid := checkpoint_id k cycle in
    if metadata_valid cycle mode then
      let snapshot := state in
      inr (mkUpdate None (Some (Some cid)) (Some (Some now)) (Some [(cid, snapshot)]))
    else inl ("Failed to create checkpoint " +:+ cid).

(** LangGraph merge of a node update into the state: [contributions] has
    the [operator.add] reducer, which builds a new list object (fresh
    location); every other key is overwritten. *)
Definition apply_update (h : heap) (s : DebateState) (u : Update) : heap * DebateState :=
  let '(h', contribs) :=
    match upd_contributions u with
    | None => (h, contributions s)
    | Some xs =>
        let l := fresh (dom h) in
        (<[l := default [] (h !! contributions s) ++ xs]> h, l)
    end in
  (h', mkDebateState (mission s) contribs (current_consensus_score s) (cycle_count s)
         (final_plan s) (intervention_mode s)
         (default (current_checkpoint s) (upd_current_checkpoint u))
         (human_feedback_history s)
         (default (paused_at s) (upd_paused_at u))
         (revision_count_per_checkpoint s)
         (default (checkpoint_snapshots s) (upd_checkpoint_snapshots u))).

Fixpoint apply_updates (h : heap) (s : DebateState) (us : list Update) : heap * DebateState :=
  match us with
  | [] => (h, s)
  | u :: us' => let '(h', s') := apply_update h s u in apply_updates h' s' us'
  end.

(** Python [lst.append(x)] on the list object at [l] (in place). *)
Definition list_append (h : heap) (l : loc) (x : AgentContribution) : heap :=
  <[l := default [] (h !! l) ++ [x]]> h.

(** Looking a snapshot up by checkpoint id ([checkpoint_snapshots[cid]]). *)
Fixpoint lookup_snapshot (cid : string) (snaps : list (string * DebateState))
  : option DebateState :=
  match snaps with
  | [] => None
  | (k, v) :: rest => if bool_decide (k = cid) then Some v else lookup_snapshot cid rest
  end.

(** What a reader of a (restored) state sees: mission, cycle number,
    consensus score and the contribution list by value. *)
Definition observe (h : heap) (s : DebateState)
  : string * Z * Q * option (list AgentContribution) :=
  (mission s, cycle_count s, current_consensus_score s, h !! contributions s).

End Checkpoints21.

(* ------------------------------------------------------------------ *)
(** ** Phase 2.3 checkpoint node ([graph_hitl_v3.create_checkpoint_node]) *)
(* ------------------------------------------------------------------ *)

Module GraphV3.

Abbreviation AgentContribution := Checkpoints21.AgentContribution.

(** [hegemon/hitl/models.py] enums. *)
Inductive CheckpointType := POST_THESIS | POST_EVALUATION | PRE_SYNTHESIS.
Inductive InterventionMode := OBSERVER | REVIEWER | COLLABORATOR.
Inductive FeedbackDecision := APPROVE | REVISE | REJECT | OVERRIDE.

Definition intervention_mode_value (m : InterventionMode) : string :=
  match m with
  | OBSERVER => "observer"
  | REVIEWER => "reviewer"
  | COLLABORATOR => "collaborator"
  end.

#[global] Instance CheckpointType_eq_dec : EqDecision CheckpointType.
Proof. solve_decision. Defined.

(** [models.HumanFeedback] (fields read by the graph). *)
Record HumanFeedback := mkHumanFeedback {
  fb_checkpoint : CheckpointType;
  fb_decision : FeedbackDecision;
  fb_guidance : string;
  fb_priority_claims : list string;
  fb_flagged_concerns : list string
}.

(** [review_package.Layer2Data]. *)
Record Layer2Data := mkLayer2Data {
  aggregate_confidence : Q;
  low_confidence_claims : list string
}.

(** [schemas_hitl.DebateStateHITL]. *)
Record DebateStateHITL := mkDebateStateHITL {
  mission : string;
  contributions : list AgentContribution;
  cycle_count : Z;
  current_consensus_score : Q;
  final_plan : option string;
  current_checkpoint : option string;
  human_feedback : list HumanFeedback;
  paused_at : option string;
  intervention_mode : InterventionMode;
  revision_count : Z;
  previous_outputs : gmap string string;
  hitl_enabled : bool;
  max_revisions_per_cycle : Z
}.

(** The dict a node returns; [None] = key absent. *)
Record Update := mkUpdate {
  u_human_feedback : option (list HumanFeedback);
  u_current_checkpoint : option (option string);
  u_paused_at : option (option string);
  u_revision_count : option Z;
  u_previous_outputs : option (gmap string string);
  u_final_plan : option (option string)
}.

Definition empty_update : Update := mkUpdate None None None None None None.

(** LangGraph merge: [contributions] and [human_feedback] use
    [operator.add]; the other keys are overwritten. *)
Definition apply_update (s : DebateStateHITL) (u : Update) : DebateStateHITL :=
  mkDebateStateHITL (mission s) (contributions s) (cycle_count s)
    (current_consensus_score s)
    (default (final_plan s) (u_final_plan u))
    (default (current_checkpoint s) (u_current_checkpoint u))
    (human_feedback s ++ default [] (u_human_feedback u))
    (default (paused_at s) (u_paused_at u))
    (intervention_mode s)
    (default (revision_count s) (u_revision_count u))
    (default (previous_outputs s) (u_previous_outputs u))
    (hitl_enabled s) (max_revisions_per_cycle s).

Section Node.

(** [CheckpointHandler.handle_checkpoint(checkpoint, state, layer2_data,
    layer6_data=None, previous_output)]: generates the review package,
    shows it and blocks until the human answers.  Opaque collaborator. *)
Variable handle_checkpoint :
  CheckpointType -> DebateStateHITL -> option Layer2Data -> option string -> HumanFeedback.

(** [checkpoint_node] built by [create_checkpoint_node(checkpoint_type,
    handler)].  The first component lists the handler invocations: each is
    a pause waiting for the human. *)
Definition checkpoint_node (checkpoint_type : CheckpointType) (state : DebateStateHITL)
  : list CheckpointType * Update :=
  if bool_decide (intervention_mode_value (intervention_mode state) = "observer")
     && negb (bool_decide (checkpoint_type = PRE_SYNTHESIS))
  then ([], empty_update)
  else
    let layer2_data :=
      match contributions state with
      | [] => None
      | _ => Some (mkLayer2Data (current_consensus_score state) [])
      end in
    let previous_output :=
      if 0 <? revision_count state then
        match last (contributions state) with
        | Some c => previous_outputs state !! Checkpoints21.agent_id c
        | None => None
        end
      else None in
    let feedback := handle_checkpoint checkpoint_type state layer2_data previous_output in
    let base := mkUpdate (Some [feedback]) (Some None) (Some None) None None None in
    let updates :=
    match fb_decision feedback with
    | REVISE =>
        mkUpdate (Some [feedback]) (Some None) (Some None)
          (Some (revision_count state + 1))
          (match last (contributions state) with
           | Some c => Some (<[Checkpoints21.agent_id c := Checkpoints21.content c]>
                               (previous_outputs state))
           | None => None
           end)
          None
    | REJECT => mkUpdate (Some [feedback]) (Some None) (Some None) None None (Some None)
    | _ => base
    end in
    ([checkpoint_type], updates).

End Node.

End GraphV3.

(* ------------------------------------------------------------------ *)
(** ** Python [str] operations used by the HITL code *)
(* ------------------------------------------------------------------ *)

Module PyStr.

Local Open Scope char_scope.

(** [str.isspace] on ASCII: [\t \n \v \f \r], the separators [\x1c]-[\x1f]
    and the space. *)
Definition is_space (c : ascii) : bool :=
  let n := nat_of_ascii c in
  ((9 <=? n) && (n <=? 13))%nat || ((28 <=? n) && (n <=? 32))%nat.

(** [\w] on ASCII: letters, digits and the underscore. *)
Definition is_word_char (c : ascii) : bool :=
  let n := nat_of_ascii c in
  ((48 <=? n) && (n <=? 57))%nat || ((65 <=? n) && (n <=? 90))%nat
  || ((97 <=? n) && (n <=? 122))%nat || (n =? 95)%nat.

Fixpoint drop_spaces (l : list ascii) : list ascii :=
  match l with
  | [] => []
  | c :: l' => if is_space c then drop_spaces l' else l
  end.

(** [str.strip()]. *)
Definition strip (s : string) : string :=
  string_of_list_ascii
    (rev (drop_spaces (rev (drop_spaces (list_ascii_of_string s))))).

(** [str.lower()] on ASCII. *)
Definition lower_char (c : ascii) : ascii :=
  let n := nat_of_ascii c in
  if ((65 <=? n) && (n <=? 90))%nat then ascii_of_nat (n + 32) else c.

Definition lower (s : string) : string :=
  string_of_list_ascii (map lower_char (list_ascii_of_string s)).

(** Maximal runs of characters satisfying [p], in order. *)
Fixpoint runs_go (p : ascii -> bool) (l : list ascii) (cur : list ascii)
  : list (list ascii) :=
  match l with
  | [] => match cur with [] => [] | _ => [rev cur] end
  | c :: l' =>
      if p c then runs_go p l' (c :: cur)
      else match cur with
           | [] => runs_go p l' []
           | _ => rev cur :: runs_go p l' []
           end
  end.

(** [str.split()] with no separator: maximal runs of non-space characters. *)
Definition split (s : string) : list string :=
  map string_of_list_ascii
    (runs_go (fun c => negb (is_space c)) (list_ascii_of_string s) []).

(** [re.findall(r'\b\w+\b', s)]: maximal runs of word characters. *)
Definition findall_words (s : string) : list string :=
  map string_of_list_ascii (runs_go is_word_char (list_ascii_of_string s) []).

(** [sep.join(xs)]. *)
Fixpoint join (sep : string) (xs : list string) : string :=
  match xs with
  | [] => EmptyString
  | [x] => x
  | x :: xs' => x +:+ sep +:+ join sep xs'
  end.

(** [needle in hay]. *)
Fixpoint is_prefix (p s : list ascii) : bool :=
  match p, s with
  | [], _ => true
  | _ :: _, [] => false
  | a :: p', b :: s' => bool_decide (a = b) && is_prefix p' s'
  end.

Fixpoint contains_list (p s : list ascii) : bool :=
  match s with
  | [] => is_prefix p []
  | _ :: s' => is_prefix p s || contains_list p s'
  end.

Definition contains (hay needle : string) : bool :=
  contains_list (list_ascii_of_string needle) (list_ascii_of_string hay).

(** [s.replace(ch, "")] for a one-character [ch]. *)
Definition remove_char (ch : ascii) (s : string) : string :=
  string_of_list_ascii (List.filter (fun c => negb (bool_decide (c = ch))) (list_ascii_of_string s)).

(** Python truthiness of a string. *)
Definition is_empty (s : string) : bool :=
  match s with EmptyString => true | _ => false end.

End PyStr.

(* ------------------------------------------------------------------ *)
(** ** Human Feedback construction *)
(* ------------------------------------------------------------------ *)

(** Phase 2.1: [hegemon/hitl/schemas.py], [HumanFeedback]. *)
Module Schemas21.
Import PyStr.

Inductive FeedbackDecision := approve | revise | reject | override.

Record HumanFeedback := mkHumanFeedback {
  checkpoint : string;
  timestamp : string;
  decision : FeedbackDecision;
  guidance : string;
  priority_claims : list string;
  flagged_concerns : list string
}.

Definition MSG_GUIDANCE_MIN : string :=
  "Guidance required for revision (min 10 characters). Please provide specific instructions.".
Definition MSG_DANGEROUS : string :=
  "Guidance contains potentially dangerous patterns. Please rephrase.".
Definition MSG_TOO_LONG (n : nat) : string :=
  "Guidance too long (" +:+ pretty n +:+ " characters). Max 2000 characters allowed.".

Definition dangerous_patterns : list string :=
  ["ignore previous instructions"; "disregard all prior"; "system:";
   "override all"; "jailbreak"].

(** [validate_guidance_for_revision]; [decision] is [info.data.get("decision")]
    ([decision] is declared, hence validated, before [guidance]).
    [inl] is the [ValueError] message. *)
Definition validate_guidance_for_revision (decision : option FeedbackDecision) (v : string)
  : string + string :=
  if match decision with Some revise => (String.length (strip v) <? 10)%nat | _ => false end
  then inl MSG_GUIDANCE_MIN
  else
    let v_lower := lower v in
    if existsb (contains v_lower) dangerous_patterns then inl MSG_DANGEROUS
    else if (2000 <? String.length v)%nat then inl (MSG_TOO_LONG (String.length v))
    else inr v.

(** [validate_claim_list_quality]. *)
Definition validate_claim_list_quality (v : list string) : string + list string :=
  if (20 <? length v)%nat
  then inl ("Too many items (" +:+ pretty (length v) +:+ "). Maximum 20 allowed.")
  else match List.find (fun item => (String.length (strip item) <? 5)%nat) v with
       | Some item => inl ("Item too short: '" +:+ item +:+ "'. Minimum 5 characters required.")
       | None =>
           if negb (bool_decide (NoDup v)) then inl "Duplicate items found. Please remove duplicates."
           else inr v
       end.

Definition field_errors {A} (r : string + A) : list string :=
  match r with inl e => [e] | inr _ => [] end.

(** [HumanFeedback(checkpoint=..., decision=..., guidance=..., ...)]:
    pydantic validates every supplied field and reports all errors
    together; a field left at its default ([None] here for [guidance]) is
    not run through its validator.  [inl] is the [ValidationError]. *)
Definition construct (checkpoint : string) (timestamp : string) (decision : FeedbackDecision)
    (guidance : option string) (priority_claims flagged_concerns : list string)
  : list string + HumanFeedback :=
  let r_checkpoint : string + string :=
    if (String.length checkpoint <? 5)%nat then inl "String should have at least 5 characters"
    else inr checkpoint in
  let r_guidance : string + string :=
    match guidance with
    | None => inr ""
    | Some g => validate_guidance_for_revision (Some decision) g
    end in
  let r_claims := validate_claim_list_quality priority_claims in
  let r_concerns := validate_claim_list_quality flagged_concerns in
  match r_checkpoint, r_guidance, r_claims, r_concerns with
  | inr c, inr g, inr pc, inr fc => inr (mkHumanFeedback c timestamp decision g pc fc)
  | _, _, _, _ =>
      inl (field_errors r_checkpoint ++ field_errors r_guidance
           ++ field_errors r_claims ++ field_errors r_concerns)
  end.

End Schemas21.

(** Phase 2.3: [hegemon/hitl/models.py], [HumanFeedback]. *)
Module Models.
Import PyStr.

Abbreviation CheckpointType := GraphV3.CheckpointType.
Abbreviation FeedbackDecision := GraphV3.FeedbackDecision.
Abbreviation HumanFeedback := GraphV3.HumanFeedback.

Definition dangerous_chars : list ascii := ["<"; ">"; "&"; ";"; "`"; "$"]%char.

(** [sanitize_guidance]: remove each dangerous character, then strip. *)
Definition sanitize_guidance (v : string) : string :=
  strip (fold_left (fun result ch => remove_char ch result) dangerous_chars v).

(** Construction: [guidance] has [max_length=10000], checked on the raw
    string before the after-validator [sanitize_guidance]; a guidance left
    at its default [""] is not validated.  The enum-typed [checkpoint] and
    [decision] are given as constructors. *)
Definition construct (checkpoint : CheckpointType) (decision : FeedbackDecision)
    (guidance : option string) (priority_claims flagged_concerns : list string)
  : list string + HumanFeedback :=
  match guidance with
  | None => inr (GraphV3.mkHumanFeedback checkpoint decision "" priority_claims flagged_concerns)
  | Some g =>
      if (10000 <? String.length g)%nat
      then inl ["String should have at most 10000 characters"]
      else inr (GraphV3.mkHumanFeedback checkpoint decision (sanitize_guidance g)
                  priority_claims flagged_concerns)
  end.

End Models.

(* ------------------------------------------------------------------ *)
(** ** Effectiveness scoring ([hegemon/hitl/effectiveness.py]) *)
(* ------------------------------------------------------------------ *)

(** The float constants 0.3, 0.4, 0.5 and 0.6 are taken as the rationals
    they denote. *)
Module Effectiveness.
Import PyStr.
Local Open Scope Q_scope.

(** [{text[i:i+2] for i in range(len(text) - 1)}], as a duplicate-free list. *)
Definition get_char_bigrams (text : string) : list string :=
  remove_dups (map (fun i => substring i 2 text) (seq 0 (String.length text - 1))).

(** [len(a & b)] and [len(a | b)] for duplicate-free lists [a], [b]. *)
Definition set_inter_size (a b : list string) : nat :=
  length (List.filter (fun x => bool_decide (x ∈ b)) a).
Definition set_union_size (a b : list string) : nat :=
  (length a + length (List.filter (fun x => negb (bool_decide (x ∈ a))) b))%nat.

Definition Qnat (n : nat) : Q := inject_Z (Z.of_nat n).

(** [compute_structural_change_score(original, revised)]. *)
Definition compute_structural_change_score (original revised : string) : Q :=
  if is_empty original || is_empty revised then 0 else
  let original := join " " (split original) in
  let revised := join " " (split revised) in
  let lo := String.length original in
  let lr := String.length revised in
  let len_ratio :=
    inject_Z (Z.abs (Z.of_nat lr - Z.of_nat lo)) / inject_Z (Z.max (Z.max (Z.of_nat lo) (Z.of_nat lr)) 1) in
  let words_orig := length (split original) in
  let words_rev := length (split revised) in
  let word_ratio :=
    inject_Z (Z.abs (Z.of_nat words_rev - Z.of_nat words_orig))
    / inject_Z (Z.max (Z.max (Z.of_nat words_orig) (Z.of_nat words_rev)) 1) in
  let bigrams_orig := get_char_bigrams (lower original) in
  let bigrams_rev := get_char_bigrams (lower revised) in
  match bigrams_orig, bigrams_rev with
  | [], _ => 0
  | _, [] => 0
  | _, _ =>
      let intersection := set_inter_size bigrams_orig bigrams_rev in
      let union := set_union_size bigrams_orig bigrams_rev in
      let jaccard_similarity := if (0 <? union)%nat then Qnat intersection / Qnat union else 0 in
      let jaccard_change := 1 - jaccard_similarity in
      let structural_score := len_ratio * (3 # 10) + word_ratio * (3 # 10) + jaccard_change * (4 # 10) in
      Qmin 1 (Qmax 0 structural_score)
  end.

Definition stopwords : list string :=
  ["the"; "a"; "an"; "and"; "or"; "but"; "in"; "on"; "at"; "to"; "for";
   "of"; "with"; "by"; "from"; "as"; "is"; "was"; "are"; "were"; "be";
   "been"; "being"; "have"; "has"; "had"; "do"; "does"; "did"; "will";
   "would"; "should"; "could"; "may"; "might"; "must"; "can"; "about";
   "more"; "add"; "include"; "provide"; "make"; "use"; "this"; "that";
   "these"; "those"; "your"; "you"; "please"; "also"; "very"; "just"].

Definition not_stopword (w : string) : bool := negb (bool_decide (w ∈ stopwords)).

(** [compute_keyword_match_score(revised, feedback)]. *)
Definition compute_keyword_match_score (revised : string) (feedback : Schemas21.HumanFeedback) : Q :=
  if is_empty (Schemas21.guidance feedback) then 1 # 2 else
  let guidance_words := findall_words (lower (Schemas21.guidance feedback)) in
  let keywords := List.filter (fun w => not_stopword w && (3 <? String.length w)%nat) guidance_words in
  match keywords with
  | [] => 1 # 2
  | _ =>
      let revised_lower := lower revised in
      let keywords_found := length (List.filter (contains revised_lower) keywords) in
      let keyword_score := Qnat keywords_found / Qnat (length keywords) in
      let total_claims := length (Schemas21.priority_claims feedback) in
      if (0 <? total_claims)%nat then
        let claim_matches (claim : string) : bool :=
          let claim_words := findall_words (lower claim) in
          let claim_keywords :=
            List.filter (fun w => not_stopword w && (2 <? String.length w)%nat) claim_words in
          match claim_keywords with
          | [] => false
          | _ =>
              let matches := length (List.filter (contains revised_lower) claim_keywords) in
              Qle_bool (Qnat (length claim_keywords) * (1 # 2)) (Qnat matches)
          end in
        let claims_found := length (List.filter claim_matches (Schemas21.priority_claims feedback)) in
        let claims_score := Qnat claims_found / Qnat total_claims in
        keyword_score * (2 # 5) + claims_score * (3 # 5)
      else keyword_score
  end.

End Effectiveness.

(* ------------------------------------------------------------------ *)
(** ** Contradiction detection ([hegemon/hitl/contradiction_detector.py]) *)
(* ------------------------------------------------------------------ *)

Module Contradictions.
Import PyStr Schemas21.

(** The [feedback_1] / [feedback_2] dicts of a record; keys absent from
    a record are [None]. *)
Record FeedbackSummary := mkFeedbackSummary {
  s_checkpoint : string;
  s_guidance : option string;
  s_priority_claims : option (list string);
  s_timestamp : string;
  s_decision : option FeedbackDecision
}.

Record Contradiction := mkContradiction {
  feedback_1 : FeedbackSummary;
  feedback_2 : FeedbackSummary;
  contradiction_type : string;
  severity : string
}.

Definition contradiction_pairs : list (list string * list string) :=
  [(["shorter"; "brief"; "concise"; "summarize"; "reduce"; "minimize"],
    ["longer"; "detail"; "elaborate"; "expand"; "more"; "comprehensive"]);
   (["simple"; "simplify"; "basic"; "elementary"],
    ["complex"; "detailed"; "advanced"; "comprehensive"; "sophisticated"]);
   (["remove"; "delete"; "omit"; "exclude"; "eliminate"],
    ["add"; "include"; "incorporate"; "append"; "insert"]);
   (["general"; "broad"; "overview"; "high-level"],
    ["specific"; "precise"; "detailed"; "particular"; "granular"]);
   (["conservative"; "cautious"; "careful"; "moderate"],
    ["aggressive"; "bold"; "ambitious"; "radical"]);
   (["fast"; "quick"; "rapid"; "immediate"],
    ["slow"; "gradual"; "careful"; "thorough"])].

(** [group[0]]; every group of the table is non-empty. *)
Definition first_word (group : list string) : string :=
  match group with w :: _ => w | [] => "" end.

Definition guidance_summary (fb : HumanFeedback) : FeedbackSummary :=
  mkFeedbackSummary (checkpoint fb) (Some (guidance fb)) None (timestamp fb) (Some (decision fb)).

Definition claims_summary (fb : HumanFeedback) : FeedbackSummary :=
  mkFeedbackSummary (checkpoint fb) None (Some (priority_claims fb)) (timestamp fb) None.

(** Body of the first double loop for the pair [(fb1, fb2)]. *)
Definition guidance_contradictions (fb1 fb2 : HumanFeedback) : list Contradiction :=
  if bool_decide (checkpoint fb1 = checkpoint fb2) then [] else
  let guidance1 := if is_empty (guidance fb1) then "" else lower (guidance fb1) in
  let guidance2 := if is_empty (guidance fb2) then "" else lower (guidance fb2) in
  if is_empty guidance1 || is_empty guidance2 then [] else
  flat_map (fun '(group_a, group_b) =>
    let found_a := existsb (contains guidance1) group_a in
    let found_b := existsb (contains guidance2) group_b in
    (if found_a && found_b then
       [mkContradiction (guidance_summary fb1) (guidance_summary fb2)
          (first_word group_a +:+ " vs " +:+ first_word group_b) "moderate"]
     else []) ++
    (let found_b_in_1 := existsb (contains guidance1) group_b in
     let found_a_in_2 := existsb (contains guidance2) group_a in
     if found_b_in_1 && found_a_in_2 then
       [mkContradiction (guidance_summary fb1) (guidance_summary fb2)
          (first_word group_b +:+ " vs " +:+ first_word group_a) "moderate"]
     else []))
    contradiction_pairs.

(** Body of the second double loop ("shifting priorities"). *)
Definition priority_contradictions (fb1 fb2 : HumanFeedback) : list Contradiction :=
  if bool_decide (checkpoint fb1 = checkpoint fb2) then [] else
  let claims1_set := remove_dups (map lower (priority_claims fb1)) in
  let claims2_set := remove_dups (map lower (priority_claims fb2)) in
  match claims1_set, claims2_set with
  | [], _ => []
  | _, [] => []
  | _, _ =>
      if existsb (fun c => bool_decide (c ∈ claims2_set)) claims1_set then []
      else [mkContradiction (claims_summary fb1) (claims_summary fb2) "shifting_priorities" "low"]
  end.

(** [for i in range(n): for j in range(i + 1, n)]: the pairs [(l[i], l[j])]
    with [i < j], in loop order. *)
Fixpoint ordered_pairs {A} (l : list A) : list (A * A) :=
  match l with
  | [] => []
  | x :: xs => map (fun y => (x, y)) xs ++ ordered_pairs xs
  end.

(** [detect_feedback_contradictions(feedback_history)]. *)
Definition detect_feedback_contradictions (feedback_history : list HumanFeedback)
  : list Contradiction :=
  if (length feedback_history <? 2)%nat then [] else
  flat_map (fun '(fb1, fb2) => guidance_contradictions fb1 fb2) (ordered_pairs feedback_history)
  ++ flat_map (fun '(fb1, fb2) => priority_contradictions fb1 fb2) (ordered_pairs feedback_history).

End Contradictions.

(* ------------------------------------------------------------------ *)
(** ** Feedback utilities ([hegemon/hitl/feedback.py]) *)
(* ------------------------------------------------------------------ *)

Module Feedback21.
Import PyStr Schemas21 Revision.

Definition MIN_FEEDBACK_LENGTH_FOR_ACTIONABILITY : nat := 10.

(** The [FeedbackDecision] literal as a Python string. *)
Definition decision_value (d : FeedbackDecision) : string :=
  match d with
  | approve => "approve"
  | revise => "revise"
  | reject => "reject"
  | override => "override"
  end.

Definition is_revise (d : FeedbackDecision) : bool :=
  match d with revise => true | _ => false end.

(** [validate_feedback_actionability(feedback)]: [inl] is the message of
    the raised [FeedbackValidationError], [inr true] the returned [True]. *)
Definition validate_feedback_actionability (feedback : HumanFeedback) : string + bool :=
  if is_revise (decision feedback)
     && (String.length (strip (guidance feedback)) <? MIN_FEEDBACK_LENGTH_FOR_ACTIONABILITY)%nat
  then inl ("Revision requires substantive guidance (min 10 characters). Current guidance: '"
            +:+ guidance feedback +:+ "'")
  else
    match List.find (fun claim => (String.length (strip claim) <? 5)%nat) (priority_claims feedback) with
    | Some claim => inl ("Priority claim too short: '" +:+ claim +:+ "'. Minimum 5 characters required.")
    | None =>
        match List.find (fun concern => (String.length (strip concern) <? 5)%nat)
                (flagged_concerns feedback) with
        | Some concern =>
            inl ("Flagged concern too short: '" +:+ concern +:+ "'. Minimum 5 characters required.")
        | None => inr true
        end
    end.

(** [s.startswith(prefix)]. *)
Definition startswith (s prefix : string) : bool :=
  is_prefix (list_ascii_of_string prefix) (list_ascii_of_string s).

Definition newline : string := String (ascii_of_nat 10) EmptyString.

(** The [agent_checkpoint_prefix] dict lookup with default [""]. *)
Definition agent_checkpoint_prefix (agent_id : string) : string :=
  if bool_decide (agent_id = "Katalizator") then "post_thesis"
  else if bool_decide (agent_id = "Sceptyk") then "post_thesis"
  else if bool_decide (agent_id = "Gubernator") then "post_evaluation"
  else if bool_decide (agent_id = "Syntezator") then "pre_synthesis"
  else "".

Section Context.

(** [f"{latest.override_data}"] when [override_data] is a non-empty dict,
    [None] for the empty dict (Python's [repr] of the dict's values). *)
Variable override_data_repr : HumanFeedback -> option string.

(** [build_feedback_context_for_agent(state, agent_id)] for a
    [human_feedback_history] of [HumanFeedback] instances. *)
Definition build_feedback_context_for_agent
    (human_feedback_history : list HumanFeedback) (agent_id : string) : string :=
  let prefix := agent_checkpoint_prefix agent_id in
  let relevant_feedback :=
    List.filter (fun fb => startswith (checkpoint fb) prefix) human_feedback_history in
  match last relevant_feedback with
  | None => ""
  | Some latest =>
      let context_parts :=
        ["=== HUMAN FEEDBACK ==="; "Decision: " +:+ decision_value (decision latest)]
        ++ (if is_empty (guidance latest) then [] else ["Guidance: " +:+ guidance latest])
        ++ (match priority_claims latest with
            | [] => []
            | pcs => ["Priority Claims: [" +:+ join ", " pcs +:+ "]"]
            end)
        ++ (match flagged_concerns latest with
            | [] => []
            | fcs => ["Flagged Concerns: [" +:+ join ", " fcs +:+ "]"]
            end)
        ++ (match override_data_repr latest with
            | None => []
            | Some r => ["Override Data: " +:+ r]
            end)
        ++ ["=== END FEEDBACK ==="] in
      join newline context_parts
  end.

End Context.

(** Successive [track_revision] calls for the listed checkpoints, each
    successful update merged into the state before the next call
    ([revision_count_per_checkpoint] is a plain dict field, so the merge
    keeps the value written last); stops at the first error. *)
Fixpoint track_sequence (counts : option (gmap string Z)) (checkpoints : list string)
  : list (MaxRevisionsExceededError + gmap string Z) :=
  match checkpoints with
  | [] => []
  | cp :: rest =>
      match track_revision counts cp with
      | inl e => [inl e]
      | inr upd => inr upd :: track_sequence (Some (merge_revision_counts (default ∅ counts) upd)) rest
      end
  end.

(** No checkpoint occurs twice in a row. *)
Fixpoint alternating (cps : list string) : Prop :=
  match cps with
  | x :: ((y :: _) as rest) => x <> y /\ alternating rest
  | _ => True
  end.

End Feedback21.

(* ------------------------------------------------------------------ *)
(** ** Effectiveness tiers 3 and combined ([hegemon/hitl/effectiveness.py]) *)
(* ------------------------------------------------------------------ *)

Module EffectivenessTiers.
Import PyStr Effectiveness.
Local Open Scope Q_scope.

Definition KEYWORD_MATCH_WEIGHT : Q := 6 # 10.
Definition STRUCTURAL_CHANGE_WEIGHT : Q := 4 # 10.

Definition is_digit (c : ascii) : bool :=
  let n := nat_of_ascii c in ((48 <=? n) && (n <=? 57))%nat.

(** Longest prefix of digits, and the rest. *)
Fixpoint span_digits (l : list ascii) : list ascii * list ascii :=
  match l with
  | c :: l' => if is_digit c then let '(ds, rest) := span_digits l' in (c :: ds, rest) else ([], l)
  | [] => ([], [])
  end.

(** [re.search] with the one-group pattern [\d+\.?\d*] (digits, an
    optional dot, digits): the leftmost match, as its integer digits and,
    when the dot is present, its fraction digits. *)
Fixpoint search_number (l : list ascii) : option (list ascii * option (list ascii)) :=
  match l with
  | [] => None
  | c :: l' =>
      if is_digit c then
        let '(ds, rest) := span_digits l in
        match rest with
        | "."%char :: r => Some (ds, Some (fst (span_digits r)))
        | _ => Some (ds, None)
        end
      else search_number l'
  end.

Definition digits_value (ds : list ascii) : Z :=
  fold_left (fun acc c => (acc * 10 + (Z.of_nat (nat_of_ascii c) - 48))%Z) ds 0%Z.

(** [float(match.group(1))], taken as the exact decimal value. *)
Definition parse_float (m : list ascii * option (list ascii)) : Q :=
  match m with
  | (ds, None) => inject_Z (digits_value ds)
  | (ds, Some fs) =>
      inject_Z (digits_value ds) + inject_Z (digits_value fs) / inject_Z (10 ^ Z.of_nat (length fs))
  end.

Section Semantic.

(** Python's [str()] of a list of strings, used inside the prompt. *)
Variable list_repr : list string -> string.

(** The f-string prompt of [compute_semantic_effectiveness_llm]. *)
Definition semantic_prompt (original revised : string) (feedback : Schemas21.HumanFeedback) : string :=
  "Assess how well the REVISED output incorporated the HUMAN FEEDBACK." +:+ Feedback21.newline
  +:+ Feedback21.newline +:+ "ORIGINAL OUTPUT:" +:+ Feedback21.newline
  +:+ substring 0 400 original +:+ "..." +:+ Feedback21.newline
  +:+ Feedback21.newline +:+ "HUMAN FEEDBACK:" +:+ Feedback21.newline
  +:+ "Decision: " +:+ Feedback21.decision_value (Schemas21.decision feedback) +:+ Feedback21.newline
  +:+ "Guidance: " +:+ Schemas21.guidance feedback +:+ Feedback21.newline
  +:+ "Priority Claims: " +:+ list_repr (Schemas21.priority_claims feedback) +:+ Feedback21.newline
  +:+ "Flagged Concerns: " +:+ list_repr (Schemas21.flagged_concerns feedback) +:+ Feedback21.newline
  +:+ Feedback21.newline +:+ "REVISED OUTPUT:" +:+ Feedback21.newline
  +:+ substring 0 400 revised +:+ "..." +:+ Feedback21.newline
  +:+ Feedback21.newline
  +:+ "QUESTION: On a scale of 0.0 to 1.0, how well did the revised output address the human's feedback?"
  +:+ Feedback21.newline +:+ Feedback21.newline +:+ "Scoring criteria:" +:+ Feedback21.newline
  +:+ "- 1.0 = Perfectly addressed all feedback points" +:+ Feedback21.newline
  +:+ "- 0.7 = Addressed most feedback, minor gaps" +:+ Feedback21.newline
  +:+ "- 0.5 = Partially addressed feedback" +:+ Feedback21.newline
  +:+ "- 0.3 = Minimally addressed feedback" +:+ Feedback21.newline
  +:+ "- 0.0 = Completely ignored feedback" +:+ Feedback21.newline
  +:+ Feedback21.newline +:+ "Respond with ONLY a number between 0.0 and 1.0.".

(** [compute_semantic_effectiveness_llm(original, revised, feedback,
    llm_callable)]: [llm_callable] is [None] when absent; a call returns
    [Some (str(response))], or [None] when it raises. *)
Definition compute_semantic_effectiveness_llm (original revised : string)
    (feedback : Schemas21.HumanFeedback) (llm_callable : option (string -> option string)) : Q :=
  match llm_callable with
  | None => 1 # 2
  | Some call =>
      match call (semantic_prompt original revised feedback) with
      | None => 1 # 2
      | Some response =>
          match search_number (list_ascii_of_string response) with
          | Some m => Qmin 1 (Qmax 0 (parse_float m))
          | None => 1 # 2
          end
      end
  end.

(** Python's [round(x, 2)] on the exact value: round half to even. *)
Definition round_half_even (q : Q) : Z :=
  let f := Qfloor q in
  let r := q - inject_Z f in
  if Qle_bool (1 # 2) r then
    if Qeq_bool r (1 # 2) then (if Z.even f then f else f + 1)%Z else (f + 1)%Z
  else f.

Definition round2 (q : Q) : Q := inject_Z (round_half_even (q * 100)) / 100.

Record EffectivenessDetails := mkEffectivenessDetails {
  original_length : nat;
  revised_length : nat;
  feedback_decision : Schemas21.FeedbackDecision;
  guidance_provided : bool;
  priority_claims_count : nat;
  flagged_concerns_count : nat
}.

Record EffectivenessResult := mkEffectivenessResult {
  overall : Q;
  structural : Q;
  keyword_match : Q;
  interpretation : string;
  details : EffectivenessDetails;
  semantic : option Q
}.

Definition interpret (overall_score : Q) : string :=
  if Qle_bool (8 # 10) overall_score then "Excellent"
  else if Qle_bool (6 # 10) overall_score then "Good"
  else if Qle_bool (4 # 10) overall_score then "Fair"
  else if Qle_bool (2 # 10) overall_score then "Poor"
  else "Minimal".

(** [compute_feedback_effectiveness(original, revised, feedback,
    use_llm_scoring, llm_callable)] of the effectiveness module. *)
Definition compute_feedback_effectiveness (original revised : string)
    (feedback : Schemas21.HumanFeedback) (use_llm_scoring : bool)
    (llm_callable : option (string -> option string)) : EffectivenessResult :=
  let structural_score := compute_structural_change_score original revised in
  let keyword_score := compute_keyword_match_score revised feedback in
  let semantic_score :=
    if use_llm_scoring
    then Some (compute_semantic_effectiveness_llm original revised feedback llm_callable)
    else None in
  let overall_score :=
    match semantic_score with
    | Some s => structural_score * (2 # 10) + keyword_score * (3 # 10) + s * (5 # 10)
    | None => structural_score * STRUCTURAL_CHANGE_WEIGHT + keyword_score * KEYWORD_MATCH_WEIGHT
    end in
  mkEffectivenessResult (round2 overall_score) (round2 structural_score) (round2 keyword_score)
    (interpret overall_score)
    (mkEffectivenessDetails (String.length original) (String.length revised)
       (Schemas21.decision feedback) (negb (is_empty (Schemas21.guidance feedback)))
       (length (Schemas21.priority_claims feedback)) (length (Schemas21.flagged_concerns feedback)))
    (option_map round2 semantic_score).

End Semantic.

End EffectivenessTiers.

(* ------------------------------------------------------------------ *)
(** ** Review package helpers ([hegemon/hitl/review_package.py], [models.py]) *)
(* ------------------------------------------------------------------ *)

Module ReviewGen.
Import PyStr.
Local Open Scope Q_scope.

Abbreviation AgentContribution := Checkpoints21.AgentContribution.

(** [ReviewPackage.summary]: [max_length=2000] on the raw string, then the
    after-validator [validate_summary_length]; [inl] is the error. *)
Definition validate_summary (v : string) : string + string :=
  if (2000 <? String.length v)%nat then inl "String should have at most 2000 characters"
  else if (String.length (strip v) <? 50)%nat then inl "Summary must be at least 50 characters"
  else inr (strip v).

(** [LLMReviewGenerator._fallback_summary(contribution)]. *)
Definition fallback_summary (contribution : AgentContribution) : string :=
  Checkpoints21.agent_id contribution +:+ " completed analysis in cycle "
  +:+ pretty (Checkpoints21.contrib_cycle contribution)
  +:+ ". Review the output below for key claims and concerns.".

(** [s.split(sep)] for a one-character separator: every occurrence splits,
    empty pieces are kept. *)
Fixpoint split_on_go (sep : ascii) (l : list ascii) (cur : list ascii) : list (list ascii) :=
  match l with
  | [] => [rev cur]
  | c :: l' => if bool_decide (c = sep) then rev cur :: split_on_go sep l' [] else split_on_go sep l' (c :: cur)
  end.

Definition split_on (sep : ascii) (s : string) : list string :=
  map string_of_list_ascii (split_on_go sep (list_ascii_of_string s) []).

(** [LLMReviewGenerator._extract_key_points(summary, max_points)]. *)
Definition extract_key_points (summary : string) (max_points : nat) : list string :=
  let sentences :=
    List.filter (fun s => negb (is_empty s)) (map strip (split_on "."%char summary)) in
  take max_points sentences.

(** [models.ReviewHighlight]. *)
Record ReviewHighlight := mkReviewHighlight {
  claim_id : string;
  hl_content : string;
  confidence : Q;
  reason : string
}.

(** Pydantic validation of [ReviewHighlight(...)]: [content] at most 5000
    characters, [0.0 <= confidence <= 1.0]; [None] is the error. *)
Definition make_highlight (cid content : string) (conf : Q) (reason : string)
  : option ReviewHighlight :=
  if (5000 <? String.length content)%nat then None
  else if Qle_bool 0 conf && Qle_bool conf 1 then Some (mkReviewHighlight cid content conf reason)
  else None.

(** [review_package.Layer2Data]. *)
Record Layer2Data := mkLayer2Data {
  aggregate_confidence : Q;
  low_confidence_claims : list (string * Q)
}.

(** The inner [for contrib in contributions: ... break] loop: the first
    contribution whose content contains [cid]. *)
Definition find_containing (cid : string) (contributions : list AgentContribution)
  : option AgentContribution :=
  List.find (fun contrib => contains (Checkpoints21.content contrib) cid) contributions.

(** [LLMReviewGenerator._extract_highlights(contributions, layer2_data)];
    [None] is a raised error ([IndexError] on an empty contribution list in
    the fallback branch, [ValidationError] from [ReviewHighlight]). *)
Definition extract_highlights (contributions : list AgentContribution)
    (layer2_data : option Layer2Data) : option (list ReviewHighlight) :=
  let claims := match layer2_data with Some d => low_confidence_claims d | None => [] end in
  match claims with
  | [] =>
      match last contributions with
      | None => None
      | Some last_c =>
          match make_highlight
                  (Checkpoints21.agent_id last_c +:+ "_" +:+ pretty (Checkpoints21.contrib_cycle last_c)
                   +:+ "_main")
                  (substring 0 500 (Checkpoints21.content last_c)) (8 # 10) "high_impact" with
          | Some h => Some (take 10 [h])
          | None => None
          end
      end
  | _ =>
      let fix go (cs : list (string * Q)) : option (list ReviewHighlight) :=
        match cs with
        | [] => Some []
        | (cid, conf) :: rest =>
            match find_containing cid contributions with
            | None => go rest
            | Some contrib =>
                match make_highlight cid (substring 0 500 (Checkpoints21.content contrib)) conf
                        "low_confidence" with
                | None => None
                | Some h => option_map (cons h) (go rest)
                end
            end
        end in
      option_map (take 10) (go (take 10 claims))
  end.

End ReviewGen.

(* ------------------------------------------------------------------ *)
(** ** Final plan workflow ([hegemon/schemas.py], [FinalPlan]) *)
(* ------------------------------------------------------------------ *)

Module Workflow.

(** [WorkflowStep] (validated fields: [step_id >= 1], description and role
    lengths; only [step_id] and [dependencies] are read by the validator). *)
Record WorkflowStep := mkWorkflowStep {
  step_id : Z;
  description : string;
  assigned_agent_role : string;
  dependencies : list Z
}.

Fixpoint check_dependencies (step : WorkflowStep) (step_ids : list Z) (deps : list Z)
  : option string :=
  match deps with
  | [] => None
  | dep_id :: rest =>
      if negb (bool_decide (dep_id ∈ step_ids)) then
        Some ("Step " +:+ pretty (step_id step) +:+ " depends on non-existent step " +:+ pretty dep_id)
      else if (step_id step <=? dep_id)%Z then
        Some ("Step " +:+ pretty (step_id step) +:+ " cannot depend on later step "
              +:+ pretty dep_id +:+ " (workflow must be acyclic)")
      else check_dependencies step step_ids rest
  end.

Fixpoint check_steps (step_ids : list Z) (steps : list WorkflowStep) : option string :=
  match steps with
  | [] => None
  | step :: rest =>
      match check_dependencies step step_ids (dependencies step) with
      | Some e => Some e
      | None => check_steps step_ids rest
      end
  end.

(** [FinalPlan.validate_workflow_consistency(v)]; [inl] is the [ValueError]. *)
Definition validate_workflow_consistency (v : list WorkflowStep) : string + list WorkflowStep :=
  match check_steps (map step_id v) v with
  | Some e => inl e
  | None => inr v
  end.

(** Step [a] directly depends on step [b]. *)
Definition depends_on (v : list WorkflowStep) (a b : Z) : Prop :=
  exists step, In step v /\ step_id step = a /\ In b (dependencies step).

End Workflow.

(* ------------------------------------------------------------------ *)
(** ** The v3 debate loop ([graph_hitl_v3.create_hegemon_graph_hitl_v3]) *)
(* ------------------------------------------------------------------ *)

Module GraphV3Loop.
Import GraphV3.

(** The fields [should_continue_after_gubernator] reads. *)
Definition routing_view (s : DebateStateHITL) : Routing.HITLRoutingState :=
  Routing.mkHITLRoutingState
    (match last (human_feedback s) with
     | Some fb => match fb_decision fb with REJECT => true | _ => false end
     | None => false
     end)
    (revision_count s) (max_revisions_per_cycle s) (current_consensus_score s) (cycle_count s).

(** Appending to the [operator.add] field [contributions]. *)
Definition add_contribution (s : DebateStateHITL) (c : AgentContribution) : DebateStateHITL :=
  mkDebateStateHITL (mission s) (contributions s ++ [c]) (cycle_count s)
    (current_consensus_score s) (final_plan s) (current_checkpoint s) (human_feedback s)
    (paused_at s) (intervention_mode s) (revision_count s) (previous_outputs s)
    (hitl_enabled s) (max_revisions_per_cycle s).

Definition set_consensus_score (s : DebateStateHITL) (q : Q) : DebateStateHITL :=
  mkDebateStateHITL (mission s) (contributions s) (cycle_count s) q (final_plan s)
    (current_checkpoint s) (human_feedback s) (paused_at s) (intervention_mode s)
    (revision_count s) (previous_outputs s) (hitl_enabled s) (max_revisions_per_cycle s).

Section Loop.

Variable handle_checkpoint :
  CheckpointType -> DebateStateHITL -> option Layer2Data -> option string -> HumanFeedback.

(** The agent nodes of [hegemon/agents.py]: [katalizator_node] and
    [sceptyk_node] return [{"contributions": [contribution]}];
    [gubernator_node] returns [{"current_consensus_score": ...,
    "contributions": [contribution]}].  The LLM-produced contribution and
    score are opaque. *)
Variable katalizator_contribution sceptyk_contribution : DebateStateHITL -> AgentContribution.
Variable gubernator_evaluation : DebateStateHITL -> AgentContribution * Q.

Definition katalizator_node (s : DebateStateHITL) : DebateStateHITL :=
  add_contribution s (katalizator_contribution s).

Definition sceptyk_node (s : DebateStateHITL) : DebateStateHITL :=
  add_contribution s (sceptyk_contribution s).

Definition gubernator_node (s : DebateStateHITL) : DebateStateHITL :=
  let '(c, score) := gubernator_evaluation s in
  set_consensus_score (add_contribution s c) score.

Definition run_checkpoint (t : CheckpointType) (s : DebateStateHITL) : DebateStateHITL :=
  apply_update s (snd (checkpoint_node handle_checkpoint t s)).

(** One pass katalizator -> checkpoint_post_thesis -> sceptyk -> gubernator
    -> checkpoint_post_evaluation, then the conditional edge. *)
Definition debate_round (settings : Routing.DebateConfig) (s : DebateStateHITL)
  : Routing.Route * DebateStateHITL :=
  let s1 := run_checkpoint POST_THESIS (katalizator_node s) in
  let s2 := run_checkpoint POST_EVALUATION (gubernator_node (sceptyk_node s1)) in
  (Routing.should_continue_after_gubernator settings (routing_view s2), s2).

(** At most [fuel] rounds; [Some (route, state)] when the edge leaves the
    loop, [None] when every round routes back to [katalizator]. *)
Fixpoint run_v3 (fuel : nat) (settings : Routing.DebateConfig) (s : DebateStateHITL)
  : option (Routing.Route * DebateStateHITL) :=
  match fuel with
  | O => None
  | S f =>
      let '(r, s') := debate_round settings s in
      match r with
      | Routing.katalizator => run_v3 f settings s'
      | _ => Some (r, s')
      end
  end.

End Loop.

End GraphV3Loop.

(* ================================================================== *)
(** * Properties *)
(* ================================================================== *)

Module RoutingFacts.
Import Routing.

Lemma should_continue_katalizator_below_cap settings consensus cycle :
  should_continue settings consensus cycle = katalizator -> cycle < max_cycles settings.
Proof.
  unfold should_continue. destruct (Z.geb_spec cycle (max_cycles settings)); [discriminate | lia].
Qed.

Lemma should_continue_at_cap settings consensus cycle :
  max_cycles settings <= cycle -> should_continue settings consensus cycle = checkpoint_pre_synthesis.
Proof.
  intros H. unfold should_continue. destruct (Z.geb_spec cycle (max_cycles settings)); [done | lia].
Qed.

Lemma should_continue_debate_continue_below_cap score cycle :
  should_continue_debate score cycle = continue_debate -> cycle < graph_max_cycles.
Proof.
  unfold should_continue_debate. destruct (Z.geb_spec cycle graph_max_cycles); [discriminate | lia].
Qed.

Lemma should_continue_debate_at_cap score cycle :
  graph_max_cycles <= cycle -> should_continue_debate score cycle = synthesize.
Proof.
  intros H. unfold should_continue_debate. destruct (Z.geb_spec cycle graph_max_cycles); [done | lia].
Qed.

(** With [n] evaluations of fuel starting at cycle [c], and the cap reached
    no later than the last of them, the v2 loop selects synthesis at some
    cycle between [c] and [max c M]. *)
Lemma run_v2_reaches_synthesis settings scores (n : nat) :
  forall c, (0 < n)%nat -> max_cycles settings <= c + Z.of_nat n - 1 ->
  exists c', run_v2 n settings scores c = Some c' /\ c <= c' <= Z.max c (max_cycles settings).
Proof.
  induction n as [|f IH]; intros c Hn Hcap; [lia |].
  simpl. destruct (should_continue settings (scores c) c) eqn:Hr.
  - exists c. split; [done | lia].
  - apply should_continue_katalizator_below_cap in Hr.
    destruct (IH (increment_cycle c)) as [c' [Hrun Hb]];
      unfold increment_cycle in *; [lia | lia |].
    exists c'. split; [done | lia].
  - exists c. split; [done | lia].
Qed.

Lemma run_v1_reaches_synthesis scores (n : nat) :
  forall c, (0 < n)%nat -> graph_max_cycles <= c + Z.of_nat n - 1 ->
  exists c', run_v1 n scores c = Some c' /\ c <= c' <= Z.max c graph_max_cycles.
Proof.
  induction n as [|f IH]; intros c Hn Hcap; [lia |].
  simpl. destruct (should_continue_debate (scores c) c) eqn:Hr.
  - apply should_continue_debate_continue_below_cap in Hr.
    destruct (IH (increment_cycle c)) as [c' [Hrun Hb]];
      unfold increment_cycle in *; [lia | lia |].
    exists c'. split; [done | lia].
  - exists c. split; [done | lia].
Qed.

End RoutingFacts.

Module RoutingClaims.
Import Routing RoutingFacts.

(** C1: for every configuration with [max_cycles = M >= 1] and every
    sequence of consensus scores, the v2 debate loop started at cycle 1
    selects the pre-synthesis checkpoint at some cycle [c <= M]; whenever
    [cycle_count >= max_cycles] the router selects synthesis whatever the
    score and [min_cycles] (the cap is tested first).  The same holds for
    [graph.should_continue_debate] with its own [max_cycles = 5]. *)
Theorem debate_reaches_synthesis_within_max_cycles :
  forall (settings : DebateConfig) (scores : Z -> Q),
    1 <= max_cycles settings ->
    (forall (consensus : Q) (cycle : Z), max_cycles settings <= cycle ->
       should_continue settings consensus cycle = checkpoint_pre_synthesis) /\
    (exists c, run_v2 (Z.to_nat (max_cycles settings)) settings scores 1 = Some c
               /\ 1 <= c <= max_cycles settings) /\
    (forall (score : Q) (cycle : Z), graph_max_cycles <= cycle ->
       should_continue_debate score cycle = synthesize) /\
    (exists c, run_v1 (Z.to_nat graph_max_cycles) scores 1 = Some c
               /\ 1 <= c <= graph_max_cycles).
Proof.
  intros settings scores HM. split; [|split; [|split]].
  - intros. by apply should_continue_at_cap.
  - destruct (run_v2_reaches_synthesis settings scores (Z.to_nat (max_cycles settings)) 1)
      as [c [Hrun Hb]]; [lia | lia |].
    exists c. split; [done | lia].
  - intros. by apply should_continue_debate_at_cap.
  - destruct (run_v1_reaches_synthesis scores (Z.to_nat graph_max_cycles) 1)
      as [c [Hrun Hb]]; unfold graph_max_cycles in *; [lia | lia |].
    exists c. split; [done | lia].
Qed.

Lemma debate_reaches_synthesis_within_max_cycles_witness :
  1 <= max_cycles (mkDebateConfig (7 # 10) 3 1) /\
  exists c, run_v2 (Z.to_nat 3) (mkDebateConfig (7 # 10) 3 1) (fun _ => 0%Q) 1 = Some c
            /\ 1 <= c <= 3.
Proof.
  split; [simpl; lia |].
  destruct (debate_reaches_synthesis_within_max_cycles
              (mkDebateConfig (7 # 10) 3 1) (fun _ => 0%Q)) as [_ [H _]];
    [simpl; lia |].
  exact H.
Defined.

(** C2 (as stated, refuted on [graph_hitl_v3]): with [min_cycles = 2],
    threshold 0.7 and a score of 0.75 at cycle 1 (no feedback, no
    revision), [should_continue_after_gubernator] does not return to the
    thesis stage; it routes to the pre-synthesis checkpoint. *)
Lemma v3_routing_ignores_min_cycles :
  cycle_count (mkHITLRoutingState false 0 3 (3 # 4) 1)
    < min_cycles (mkDebateConfig (7 # 10) 5 2) /\
  cycle_count (mkHITLRoutingState false 0 3 (3 # 4) 1)
    < max_cycles (mkDebateConfig (7 # 10) 5 2) /\
  Qle_bool (7 # 10) (3 # 4) = true /\
  should_continue_after_gubernator (mkDebateConfig (7 # 10) 5 2)
    (mkHITLRoutingState false 0 3 (3 # 4) 1) = checkpoint_pre_synthesis.
Proof. vm_compute. repeat split; reflexivity. Qed.

(** C2 (amended): below the hard cap and with the score at or above the
    threshold, [graph_hitl_v2.should_continue] routes to the pre-synthesis
    checkpoint when [c >= min_cycles] and back to the thesis stage
    (katalizator) when [c < min_cycles];
    [graph_hitl_v3.should_continue_after_gubernator] has no [min_cycles]
    gate: at any cycle, once the score meets the threshold it never routes
    back to the thesis stage, going to the Syntezator after a reject and to
    the pre-synthesis checkpoint otherwise. *)
Theorem routing_threshold_min_cycles :
  forall (settings : DebateConfig) (consensus : Q) (c : Z),
    (c < max_cycles settings ->
     (consensus_threshold settings <= consensus)%Q ->
       (min_cycles settings <= c ->
          should_continue settings consensus c = checkpoint_pre_synthesis) /\
       (c < min_cycles settings ->
          should_continue settings consensus c = katalizator)) /\
    (forall st : HITLRoutingState,
       (consensus_threshold settings <= current_consensus_score st)%Q ->
       should_continue_after_gubernator settings st
         = (if last_feedback_reject st then syntezator else checkpoint_pre_synthesis) /\
       should_continue_after_gubernator settings st <> katalizator).
Proof.
  intros settings consensus c. split.
  - intros Hcap Hthr.
    assert (Hq : Qle_bool (consensus_threshold settings) consensus = true)
      by (apply Qle_bool_iff; exact Hthr).
    split.
    + intros Hmin. unfold should_continue. rewrite Hq.
      destruct (Z.geb_spec c (max_cycles settings)); [lia |].
      destruct (Z.geb_spec c (min_cycles settings)); [done | lia].
    + intros Hmin. unfold should_continue. rewrite Hq.
      destruct (Z.geb_spec c (max_cycles settings)); [lia |].
      destruct (Z.geb_spec c (min_cycles settings)); [lia | done].
  - intros st Hthr.
    assert (Hq : Qle_bool (consensus_threshold settings) (current_consensus_score st) = true)
      by (apply Qle_bool_iff; exact Hthr).
    unfold should_continue_after_gubernator. rewrite Hq.
    destruct (last_feedback_reject st); [split; [reflexivity | discriminate] |].
    destruct (revision_count st >=? max_revisions_per_cycle st);
      (split; [reflexivity | discriminate]).
Qed.

Lemma routing_threshold_min_cycles_witness :
  2 < max_cycles (mkDebateConfig (7 # 10) 5 1) /\
  (consensus_threshold (mkDebateConfig (7 # 10) 5 1) <= 3 # 4)%Q /\
  should_continue (mkDebateConfig (7 # 10) 5 1) (3 # 4) 2 = checkpoint_pre_synthesis /\
  should_continue_after_gubernator (mkDebateConfig (7 # 10) 5 1)
    (mkHITLRoutingState false 0 3 (3 # 4) 7) = checkpoint_pre_synthesis.
Proof.
  assert (H1 : 2 < max_cycles (mkDebateConfig (7 # 10) 5 1)) by (simpl; lia).
  assert (H2 : (consensus_threshold (mkDebateConfig (7 # 10) 5 1) <= 3 # 4)%Q)
    by (apply Qle_bool_iff; vm_compute; reflexivity).
  split; [exact H1 | split; [exact H2 |]].
  destruct (routing_threshold_min_cycles (mkDebateConfig (7 # 10) 5 1) (3 # 4) 2) as [Hv2 Hv3].
  split.
  - apply (proj1 (Hv2 H1 H2)). simpl. lia.
  - exact (proj1 (Hv3 (mkHITLRoutingState false 0 3 (3 # 4) 7) H2)).
Defined.

End RoutingClaims.

Module RevisionClaims.
Import Revision.

Lemma track_revision_spec (counts : option (gmap string Z)) (cid : string) :
  track_revision counts cid =
    let c := default 0 (default ∅ counts !! cid) in
    if c >=? MAX_REVISIONS_PER_CHECKPOINT
    then inl (mkMaxRevisionsExceededError cid c MAX_REVISIONS_PER_CHECKPOINT)
    else inr {[ cid := c + 1 ]}.
Proof. reflexivity. Qed.

(** C3: a call for a checkpoint whose count has reached the ceiling 3
    raises [MaxRevisionsExceededError(checkpoint, current_count, 3)];
    a call below it returns the count incremented by exactly one; and from
    a state without a count for that checkpoint, the fourth successive call
    (updates merged in between) raises with [current_count = 3]. *)
Theorem track_revision_ceiling :
  forall (counts : option (gmap string Z)) (cid : string),
    (MAX_REVISIONS_PER_CHECKPOINT <= default 0 (default ∅ counts !! cid) ->
       track_revision counts cid =
         inl (mkMaxRevisionsExceededError cid (default 0 (default ∅ counts !! cid)) 3)) /\
    (default 0 (default ∅ counts !! cid) < MAX_REVISIONS_PER_CHECKPOINT ->
       exists upd, track_revision counts cid = inr upd /\
                   upd !! cid = Some (default 0 (default ∅ counts !! cid) + 1)) /\
    (forall counts0 : gmap string Z, counts0 !! cid = None ->
       track_repeatedly 4 (Some counts0) cid =
         [inr {[cid := 1]}; inr {[cid := 2]}; inr {[cid := 3]};
          inl (mkMaxRevisionsExceededError cid 3 3)]).
Proof.
  intros counts cid. split; [|split].
  - intros H. rewrite track_revision_spec. cbv zeta.
    destruct (Z.geb_spec (default 0 (default ∅ counts !! cid)) MAX_REVISIONS_PER_CHECKPOINT);
      [done | lia].
  - intros H. rewrite track_revision_spec. cbv zeta.
    destruct (Z.geb_spec (default 0 (default ∅ counts !! cid)) MAX_REVISIONS_PER_CHECKPOINT);
      [lia |].
    eexists. split; [reflexivity | apply lookup_singleton_eq].
  - intros counts0 H0. cbn [track_repeatedly].
    rewrite track_revision_spec. simpl default. rewrite H0. simpl.
    unfold merge_revision_counts.
    rewrite track_revision_spec. simpl default. rewrite lookup_singleton_eq. simpl.
    rewrite track_revision_spec. simpl default. rewrite lookup_singleton_eq. simpl.
    rewrite track_revision_spec. simpl default. rewrite lookup_singleton_eq. simpl.
    reflexivity.
Qed.

Lemma track_revision_ceiling_witness :
  track_repeatedly 4 (Some ∅) "post_thesis_cycle_1" =
    [inr {["post_thesis_cycle_1" := 1]}; inr {["post_thesis_cycle_1" := 2]};
     inr {["post_thesis_cycle_1" := 3]};
     inl (mkMaxRevisionsExceededError "post_thesis_cycle_1" 3 3)].
Proof.
  destruct (track_revision_ceiling None "post_thesis_cycle_1") as [_ [_ H]].
  apply H. apply lookup_empty.
Defined.

End RevisionClaims.

Module CheckpointFacts.
Import Checkpoints21.

(** A LangGraph merge never writes to an existing list object: the
    [operator.add] reducer allocates a fresh one. *)
Lemma apply_update_preserves_heap (h : heap) (s : DebateState) (u : Update) :
  forall l v, h !! l = Some v -> (fst (apply_update h s u)) !! l = Some v.
Proof.
  intros l v Hl. unfold apply_update.
  destruct (upd_contributions u) as [xs|]; simpl; [|done].
  rewrite lookup_insert_ne; [done |].
  intros Heq. apply (is_fresh (dom h)). rewrite Heq.
  apply elem_of_dom. by eexists.
Qed.

Lemma apply_updates_preserves_heap (us : list Update) :
  forall (h : heap) (s : DebateState) l v,
    h !! l = Some v -> (fst (apply_updates h s us)) !! l = Some v.
Proof.
  induction us as [|u us IH]; intros h s l v Hl; simpl; [done |].
  destruct (apply_update h s u) as [h' s'] eqn:E.
  apply IH. pose proof (apply_update_preserves_heap h s u l v Hl) as H.
  by rewrite E in H.
Qed.

End CheckpointFacts.

Module CheckpointClaims.
Import Checkpoints21 CheckpointFacts.

(** C4 (as stated, refuted): the snapshot is not a deep copy.  At a
    reviewer-mode post-thesis checkpoint of cycle 1, the snapshot stored
    under ["post_thesis_cycle_1"] shares the contributions list object of
    the live state, so an in-place [append] on that list changes what the
    snapshot shows. *)
Lemma snapshot_shares_contributions_list :
  exists u snap,
    checkpoint_node post_thesis "2025-01-01T00:00:00+00:00"
      (mkDebateState "Test mission" 1 (1 # 2) 1 None "reviewer" None [] None ∅ []) = inr u /\
    lookup_snapshot "post_thesis_cycle_1" (default [] (upd_checkpoint_snapshots u)) = Some snap /\
    contributions snap = 1%positive /\
    observe (list_append {[1%positive := []]} 1
               (mkAgentContribution "Katalizator" "thesis" "thesis" 1 "why"))
            snap
    <> observe {[1%positive := []]} snap.
Proof.
  eexists. eexists. split; [vm_compute; reflexivity |].
  split; [vm_compute; reflexivity |].
  split; [reflexivity |].
  vm_compute. discriminate.
Qed.

(** C4 (amended): outside observer mode, when the checkpoint metadata is
    valid, the node stores the shallow copy [dict(state)] under
    [<type>_cycle_<n>]; restoring from it gives the captured mission, cycle
    number, consensus score and contribution list by value, and no later
    LangGraph merge changes what it shows, because the list it shares with
    the live state is never mutated in place by a merge. *)
Theorem checkpoint_snapshot_roundtrip :
  forall (k : CheckpointKind) (now : string) (h : heap) (s : DebateState),
    intervention_mode s <> "observer" ->
    metadata_valid (cycle_count s) (intervention_mode s) = true ->
    is_Some (h !! contributions s) ->
    exists u,
      checkpoint_node k now s = inr u /\
      upd_current_checkpoint u = Some (Some (checkpoint_id k (cycle_count s))) /\
      lookup_snapshot (checkpoint_id k (cycle_count s))
        (checkpoint_snapshots (snd (apply_update h s u))) = Some s /\
      forall us : list Update,
        observe (fst (apply_updates h s (u :: us))) s = observe h s.
Proof.
  intros k now h s Hmode Hvalid [v Hv].
  unfold checkpoint_node.
  rewrite bool_decide_eq_false_2 by exact Hmode. rewrite Hvalid.
  eexists. split; [reflexivity |]. split; [reflexivity |]. split.
  - simpl. rewrite bool_decide_eq_true_2 by reflexivity. reflexivity.
  - intros us. unfold observe.
    rewrite (apply_updates_preserves_heap (_ :: us) h s _ v Hv), Hv. reflexivity.
Qed.

Lemma checkpoint_snapshot_roundtrip_witness :
  exists u,
    checkpoint_node post_thesis "t"
      (mkDebateState "Test mission" 1 (1 # 2) 2 None "reviewer" None [] None ∅ []) = inr u /\
    lookup_snapshot "post_thesis_cycle_2"
      (checkpoint_snapshots (snd (apply_update {[1%positive := []]}
         (mkDebateState "Test mission" 1 (1 # 2) 2 None "reviewer" None [] None ∅ []) u)))
    = Some (mkDebateState "Test mission" 1 (1 # 2) 2 None "reviewer" None [] None ∅ []).
Proof.
  destruct (checkpoint_snapshot_roundtrip post_thesis "t" {[1%positive := []]}
              (mkDebateState "Test mission" 1 (1 # 2) 2 None "reviewer" None [] None ∅ []))
    as [u [Hu [_ [Hl _]]]].
  - simpl. discriminate.
  - vm_compute. reflexivity.
  - simpl. rewrite lookup_singleton_eq. eexists. reflexivity.
  - exists u. split; [exact Hu | exact Hl].
Defined.

End CheckpointClaims.

Module ObserverClaims.
Import GraphV3.

(** C5 (as stated, refuted on the Phase 2.1 nodes of
    [hegemon/hitl/checkpoints.py]): in observer mode the pre-synthesis
    checkpoint node returns the empty update; it sets no current
    checkpoint, takes no snapshot, and so does not fire. *)
Lemma observer_skips_pre_synthesis_in_phase21 :
  Checkpoints21.checkpoint_node Checkpoints21.pre_synthesis "2025-01-01T00:00:00+00:00"
    (Checkpoints21.mkDebateState "Test mission" 1 (4 # 5) 2 None "observer" None [] None ∅ [])
  = inr Checkpoints21.empty_update.
Proof. vm_compute. reflexivity. Qed.

(** C5 (amended): in the checkpoint node of [graph_hitl_v3], observer mode
    makes every checkpoint other than pre-synthesis a no-op (no handler
    call, hence no pause, and an empty update that leaves the merged state
    unchanged), while the pre-synthesis checkpoint invokes the handler in
    every mode.  The Phase 2.1 nodes skip every checkpoint in observer
    mode, pre-synthesis included: they return the empty update, whose merge
    leaves the state (and the heap) unchanged. *)
Theorem observer_mode_checkpoint_noop :
  (forall handler (ty : CheckpointType) (s : DebateStateHITL),
    (intervention_mode s = OBSERVER -> ty <> PRE_SYNTHESIS ->
       checkpoint_node handler ty s = ([], empty_update) /\
       apply_update s (snd (checkpoint_node handler ty s)) = s) /\
    fst (checkpoint_node handler PRE_SYNTHESIS s) = [PRE_SYNTHESIS]) /\
  (forall (k : Checkpoints21.CheckpointKind) (now : string)
          (st : Checkpoints21.DebateState) (h : Checkpoints21.heap),
    Checkpoints21.intervention_mode st = "observer"%string ->
    Checkpoints21.checkpoint_node k now st = inr Checkpoints21.empty_update /\
    Checkpoints21.apply_update h st Checkpoints21.empty_update = (h, st)).
Proof.
  split.
  - intros handler ty s. split.
    + intros Hm Hty.
      assert (Hn : checkpoint_node handler ty s = ([], empty_update)).
      { unfold checkpoint_node. rewrite Hm.
        rewrite (bool_decide_eq_true_2 (intervention_mode_value OBSERVER = "observer"))
          by reflexivity.
        rewrite bool_decide_eq_false_2 by exact Hty. reflexivity. }
      split; [exact Hn |]. rewrite Hn. simpl.
      destruct s; unfold apply_update; simpl. rewrite app_nil_r. reflexivity.
    + unfold checkpoint_node.
      rewrite (bool_decide_eq_true_2 (PRE_SYNTHESIS = PRE_SYNTHESIS)) by reflexivity.
      rewrite andb_false_r. simpl.
      reflexivity.
  - intros k now st h Hm. split.
    + unfold Checkpoints21.checkpoint_node. cbv zeta. rewrite Hm.
      rewrite (bool_decide_eq_true_2 ("observer" = "observer")%string) by reflexivity.
      reflexivity.
    + destruct st. reflexivity.
Qed.

Lemma observer_mode_checkpoint_noop_witness :
  checkpoint_node (fun ty _ _ _ => mkHumanFeedback ty APPROVE "" [] []) POST_THESIS
    (mkDebateStateHITL "Test mission" [] 1 0 None None [] None OBSERVER 0 ∅ true 3)
  = ([], empty_update) /\
  Checkpoints21.checkpoint_node Checkpoints21.post_evaluation "2025-01-01T00:00:00+00:00"
    (Checkpoints21.mkDebateState "Test mission" 1 (4 # 5) 2 None "observer" None [] None ∅ [])
  = inr Checkpoints21.empty_update.
Proof.
  destruct observer_mode_checkpoint_noop as [Hv3 H21]. split.
  - destruct (Hv3 (fun ty _ _ _ => mkHumanFeedback ty APPROVE "" [] [])
                POST_THESIS
                (mkDebateStateHITL "Test mission" [] 1 0 None None [] None OBSERVER 0 ∅ true 3))
      as [H _].
    apply H; [reflexivity | discriminate].
  - apply (H21 _ _ _ ∅). reflexivity.
Defined.

End ObserverClaims.

Module StrFacts.
Import PyStr.

Lemma drop_spaces_suffix (l : list ascii) : exists p, l = p ++ drop_spaces l.
Proof.
  induction l as [|c l IH]; simpl; [exists []; done |].
  destruct (is_space c).
  - destruct IH as [p Hp]. exists (c :: p). simpl. by rewrite <- Hp.
  - exists []. done.
Qed.

Lemma drop_spaces_head (l : list ascii) c rest :
  drop_spaces l = c :: rest -> is_space c = false.
Proof.
  induction l as [|c' l IH]; simpl; [discriminate |].
  destruct (is_space c') eqn:E; [exact IH |].
  intros [= <- _]. exact E.
Qed.

Lemma drop_spaces_in (l : list ascii) c : In c (drop_spaces l) -> In c l.
Proof.
  destruct (drop_spaces_suffix l) as [p Hp]. intros H.
  rewrite Hp. apply in_or_app. by right.
Qed.

Lemma strip_in (s : string) c :
  In c (list_ascii_of_string (strip s)) -> In c (list_ascii_of_string s).
Proof.
  unfold strip. rewrite list_ascii_of_string_of_list_ascii.
  intros H. apply in_rev in H. apply drop_spaces_in in H.
  apply in_rev in H. by apply drop_spaces_in in H.
Qed.

Lemma strip_first (s : string) c rest :
  list_ascii_of_string (strip s) = c :: rest -> is_space c = false.
Proof.
  unfold strip. rewrite list_ascii_of_string_of_list_ascii.
  set (l1 := drop_spaces (list_ascii_of_string s)).
  set (m := drop_spaces (rev l1)).
  intros H.
  assert (Hm : m = rev rest ++ [c]).
  { rewrite <- (rev_involutive m), H. reflexivity. }
  destruct (drop_spaces_suffix (rev l1)) as [p Hp]. fold m in Hp.
  destruct l1 as [|c' t] eqn:El1.
  - simpl in Hp. rewrite Hm in Hp. destruct p; simpl in Hp; discriminate.
  - simpl in Hp. rewrite Hm, app_assoc in Hp.
    apply app_inj_tail in Hp as [_ <-].
    exact (drop_spaces_head _ c' t El1).
Qed.

Lemma strip_last (s : string) c rest :
  list_ascii_of_string (strip s) = rest ++ [c] -> is_space c = false.
Proof.
  unfold strip. rewrite list_ascii_of_string_of_list_ascii.
  intros H.
  assert (Hm : drop_spaces (rev (drop_spaces (list_ascii_of_string s))) = c :: rev rest).
  { rewrite <- (rev_involutive (drop_spaces _)), H, rev_app_distr. reflexivity. }
  exact (drop_spaces_head _ _ _ Hm).
Qed.

Lemma remove_char_in ch (s : string) c :
  In c (list_ascii_of_string (remove_char ch s)) -> c <> ch /\ In c (list_ascii_of_string s).
Proof.
  unfold remove_char. rewrite list_ascii_of_string_of_list_ascii.
  intros H. apply filter_In in H as [Hin Hc]. split; [|exact Hin].
  intros ->. rewrite bool_decide_eq_true_2 in Hc by reflexivity. discriminate.
Qed.

Lemma remove_chars_in (chs : list ascii) :
  forall (v : string) c,
    In c (list_ascii_of_string (fold_left (fun result ch => remove_char ch result) chs v)) ->
    ~ In c chs /\ In c (list_ascii_of_string v).
Proof.
  induction chs as [|ch chs IH]; intros v c H; simpl in *; [tauto |].
  apply IH in H as [Hnot Hin]. apply remove_char_in in Hin as [Hne Hin].
  split; [|exact Hin]. intros [-> | Hc]; [congruence | tauto].
Qed.

End StrFacts.

Module FeedbackClaims.
Import PyStr StrFacts.

(** C6 (as stated, refuted on [hegemon/hitl/models.py]): the Phase 2.3
    [HumanFeedback] accepts decision [revise] with guidance ["ok"]. *)
Lemma models_accepts_short_revise_guidance :
  Models.construct GraphV3.POST_THESIS GraphV3.REVISE (Some "ok") [] []
  = inr (GraphV3.mkHumanFeedback GraphV3.POST_THESIS GraphV3.REVISE "ok" [] []).
Proof. vm_compute. reflexivity. Qed.

(** C6 (amended): in the Phase 2.1 [HumanFeedback] ([hitl/schemas.py]),
    a [revise] decision with supplied guidance of fewer than 10 characters
    after stripping fails construction with the error
    "Guidance required for revision (min 10 characters)..."; the Phase 2.3
    [models.HumanFeedback] has no minimum length and accepts every
    guidance of at most 10000 characters, whatever the decision. *)
Theorem revise_guidance_min_length :
  forall (cp ts g : string) (pcs fcs : list string),
    ((String.length (strip g) < 10)%nat ->
     exists errs, Schemas21.construct cp ts Schemas21.revise (Some g) pcs fcs = inl errs
                  /\ In Schemas21.MSG_GUIDANCE_MIN errs) /\
    (forall ty d, (String.length g <= 10000)%nat ->
       exists fb, Models.construct ty d (Some g) pcs fcs = inr fb).
Proof.
  intros cp ts g pcs fcs. split.
  - intros Hlen.
    assert (Hg : Schemas21.validate_guidance_for_revision (Some Schemas21.revise) g
                 = inl Schemas21.MSG_GUIDANCE_MIN).
    { unfold Schemas21.validate_guidance_for_revision.
      by rewrite (proj2 (Nat.ltb_lt _ _) Hlen). }
    unfold Schemas21.construct. rewrite Hg.
    destruct (String.length cp <? 5)%nat;
      destruct (Schemas21.validate_claim_list_quality pcs);
      destruct (Schemas21.validate_claim_list_quality fcs);
      eexists; (split; [reflexivity |]); simpl; rewrite ?in_app_iff; simpl; auto 10.
  - intros ty d Hg. unfold Models.construct.
    rewrite (proj2 (Nat.ltb_ge _ _) Hg). eexists. reflexivity.
Qed.

Lemma revise_guidance_min_length_witness :
  Schemas21.construct "post_thesis_cycle_1" "t" Schemas21.revise (Some "ok") [] []
  = inl [Schemas21.MSG_GUIDANCE_MIN] /\
  (exists errs, Schemas21.construct "post_thesis_cycle_1" "t" Schemas21.revise (Some "ok") [] []
               = inl errs /\ In Schemas21.MSG_GUIDANCE_MIN errs) /\
  (exists fb, Models.construct GraphV3.POST_THESIS GraphV3.REVISE
                (Some "Please quantify the implementation risks of phase two") [] [] = inr fb).
Proof.
  split; [vm_compute; reflexivity |]. split.
  - destruct (revise_guidance_min_length "post_thesis_cycle_1" "t" "ok" [] []) as [H _].
    apply H. vm_compute. lia.
  - destruct (revise_guidance_min_length "post_thesis_cycle_1" "t"
                "Please quantify the implementation risks of phase two" [] []) as [_ H].
    apply H. vm_compute. lia.
Defined.

(** C10: every [models.HumanFeedback] that construction accepts has a
    guidance with none of [< > & ; ` $] and no leading or trailing
    whitespace; any supplied guidance of at most 10000 characters is
    accepted (sanitised, not rejected), whatever the decision. *)
Theorem models_guidance_sanitized :
  (forall ty d (g : option string) (pcs fcs : list string) (fb : GraphV3.HumanFeedback),
     Models.construct ty d g pcs fcs = inr fb ->
     (forall c, In c (list_ascii_of_string (GraphV3.fb_guidance fb)) ->
        ~ In c Models.dangerous_chars) /\
     (forall c rest, list_ascii_of_string (GraphV3.fb_guidance fb) = c :: rest ->
        is_space c = false) /\
     (forall c rest, list_ascii_of_string (GraphV3.fb_guidance fb) = rest ++ [c] ->
        is_space c = false)) /\
  (forall ty d (g : string) (pcs fcs : list string),
     (String.length g <= 10000)%nat ->
     Models.construct ty d (Some g) pcs fcs
     = inr (GraphV3.mkHumanFeedback ty d (Models.sanitize_guidance g) pcs fcs)).
Proof.
  split.
  - intros ty d g pcs fcs fb Hc. unfold Models.construct in Hc.
    destruct g as [g|].
    + destruct (10000 <? String.length g)%nat; [discriminate |].
      injection Hc as <-. cbn [GraphV3.fb_guidance]. unfold Models.sanitize_guidance.
      split; [|split].
      * intros c Hin. apply strip_in in Hin. apply remove_chars_in in Hin. tauto.
      * apply strip_first.
      * apply strip_last.
    + injection Hc as <-. simpl.
      split; [|split]; intros c; [tauto | discriminate |].
      intros rest H. destruct rest; discriminate.
  - intros ty d g pcs fcs Hg. unfold Models.construct.
    by rewrite (proj2 (Nat.ltb_ge _ _) Hg).
Qed.

Lemma models_guidance_sanitized_witness :
  Models.construct GraphV3.POST_THESIS GraphV3.REVISE (Some " <b>ok; </b> ") [] []
  = inr (GraphV3.mkHumanFeedback GraphV3.POST_THESIS GraphV3.REVISE
           (Models.sanitize_guidance " <b>ok; </b> ") [] []) /\
  Models.sanitize_guidance " <b>ok; </b> " = "bok /b".
Proof.
  split; [| vm_compute; reflexivity].
  apply (proj2 models_guidance_sanitized). vm_compute. lia.
Defined.

End FeedbackClaims.

(* ------------------------------------------------------------------ *)
(** ** Effectiveness scores *)
(* ------------------------------------------------------------------ *)

Module EffectivenessFacts.
Import PyStr Effectiveness.
Local Open Scope Q_scope.

Lemma filter_all {A} (f : A -> bool) (l : list A) :
  (forall x, In x l -> f x = true) -> List.filter f l = l.
Proof.
  induction l as [|x l IH]; intros Hf; simpl; [done |].
  rewrite (Hf x (or_introl eq_refl)), IH; [done |].
  intros y Hy. apply Hf. by right.
Qed.

Lemma filter_none {A} (f : A -> bool) (l : list A) :
  (forall x, In x l -> f x = false) -> List.filter f l = [].
Proof.
  induction l as [|x l IH]; intros Hf; simpl; [done |].
  rewrite (Hf x (or_introl eq_refl)). apply IH.
  intros y Hy. apply Hf. by right.
Qed.

Lemma set_inter_size_diag (a : list string) : set_inter_size a a = length a.
Proof.
  unfold set_inter_size. rewrite filter_all; [done |].
  intros x Hx. apply bool_decide_eq_true_2. by apply list_elem_of_In.
Qed.

Lemma set_union_size_diag (a : list string) : set_union_size a a = length a.
Proof.
  unfold set_union_size. rewrite filter_none; [simpl; lia |].
  intros x Hx. rewrite bool_decide_eq_true_2; [done |]. by apply list_elem_of_In.
Qed.

(** [min(1.0, max(0.0, s))] lies in [0, 1]. *)
Lemma clamp_range (s : Q) : 0 <= Qmin 1 (Qmax 0 s) <= 1.
Proof.
  split.
  - apply Q.min_glb; [discriminate | apply Q.le_max_l].
  - apply Q.le_min_l.
Qed.

(** A clamped value equal to [0] as a rational is the literal [0]. *)
Lemma clamp_zero (s : Q) : s == 0 -> Qmin 1 (Qmax 0 s) = 0.
Proof.
  intros Hs. unfold Qmax, Qmin, GenericMinMax.gmax, GenericMinMax.gmin.
  assert (Hc : (0 ?= s) = Eq) by (apply Qeq_alt; by symmetry).
  by rewrite Hc.
Qed.

Lemma Qnat_div_diag (n : nat) : (0 < n)%nat -> Qnat n / Qnat n == 1.
Proof.
  intros Hn. unfold Qdiv. apply Qmult_inv_r. unfold Qnat. intros H.
  apply (proj1 (inject_Z_injective _ 0)) in H. lia.
Qed.

End EffectivenessFacts.

Module EffectivenessClaims.
Import PyStr Effectiveness EffectivenessFacts.
Local Open Scope Q_scope.

(** C7: [compute_structural_change_score] always lies in [[0, 1]]; it is
    exactly [0.0] (the literal rational [0]) when both arguments are the
    same non-empty string, and exactly [0.0] when either argument is the
    empty string.  For identical strings every term of the weighted sum is
    [0] (the two ratios have numerator [0], the Jaccard similarity is [n/n]),
    so the float computation is exact as well. *)
Theorem structural_change_score_spec :
  (forall original revised : string,
     0 <= compute_structural_change_score original revised <= 1) /\
  (forall x : string, x <> ""%string -> compute_structural_change_score x x = 0) /\
  (forall s : string,
     compute_structural_change_score "" s = 0 /\ compute_structural_change_score s "" = 0).
Proof.
  split; [|split].
  - intros o r. unfold compute_structural_change_score.
    destruct (is_empty o || is_empty r); [split; discriminate |].
    destruct (get_char_bigrams _); [split; discriminate |].
    destruct (get_char_bigrams _); [split; discriminate |].
    apply clamp_range.
  - intros x Hx. unfold compute_structural_change_score.
    assert (He : is_empty x = false) by (destruct x; [done | reflexivity]).
    rewrite He. simpl orb. cbv zeta.
    set (n := join " " (split x)).
    destruct (get_char_bigrams (lower n)) as [|b bs] eqn:Hb; [done |].
    apply clamp_zero.
    rewrite set_inter_size_diag, set_union_size_diag.
    simpl length. replace (0 <? S (length bs))%nat with true by reflexivity.
    rewrite (Qnat_div_diag (S (length bs))) by lia.
    rewrite !Z.sub_diag. change (inject_Z (Z.abs 0)) with 0. unfold Qdiv. ring.
  - intros s. unfold compute_structural_change_score. simpl.
    split; [done |]. by rewrite orb_true_r.
Qed.

Lemma structural_change_score_spec_witness :
  "plan"%string <> ""%string /\
  compute_structural_change_score "plan" "plan" = 0 /\
  0 <= compute_structural_change_score "short plan" "a much longer revised plan" <= 1.
Proof.
  split; [discriminate |]. split.
  - apply (proj1 (proj2 structural_change_score_spec)). discriminate.
  - apply (proj1 structural_change_score_spec).
Defined.

(** C8: for every revised text, [compute_keyword_match_score] returns
    exactly [0.5] when the feedback has no guidance text ([guidance == ""],
    the field's default; [not feedback.guidance] holds). *)
Theorem keyword_match_no_guidance :
  forall (revised : string) (feedback : Schemas21.HumanFeedback),
    Schemas21.guidance feedback = ""%string ->
    compute_keyword_match_score revised feedback = 1 # 2.
Proof.
  intros revised feedback Hg. unfold compute_keyword_match_score.
  by rewrite Hg.
Qed.

Lemma keyword_match_no_guidance_witness :
  Schemas21.guidance
    (Schemas21.mkHumanFeedback "post_thesis" "2025-01-01T00:00:00" Schemas21.approve ""
       ["cost analysis"] []) = ""%string /\
  compute_keyword_match_score "anything at all"
    (Schemas21.mkHumanFeedback "post_thesis" "2025-01-01T00:00:00" Schemas21.approve ""
       ["cost analysis"] []) = 1 # 2.
Proof.
  split; [reflexivity |].
  apply keyword_match_no_guidance. reflexivity.
Defined.

End EffectivenessClaims.

(* ------------------------------------------------------------------ *)
(** ** Contradiction detection *)
(* ------------------------------------------------------------------ *)

Module ContradictionFacts.
Import Schemas21 Contradictions.

(** Every record built for the pair [(fb1, fb2)] carries the checkpoints
    of [fb1] and [fb2], and is built only when these differ. *)
Lemma guidance_contradictions_checkpoints fb1 fb2 c :
  In c (guidance_contradictions fb1 fb2) ->
  s_checkpoint (feedback_1 c) = checkpoint fb1 /\
  s_checkpoint (feedback_2 c) = checkpoint fb2 /\
  checkpoint fb1 <> checkpoint fb2.
Proof.
  unfold guidance_contradictions. case_bool_decide as Hne; [intros [] |].
  destruct (_ || _); [intros [] |].
  intros Hin. apply in_flat_map in Hin as ([ga gb] & _ & Hin).
  apply in_app_iff in Hin as [Hin | Hin];
    match type of Hin with In _ (if ?b then _ else _) => destruct b end;
    [destruct Hin as [<- | []]; simpl; auto | destruct Hin
    |destruct Hin as [<- | []]; simpl; auto | destruct Hin].
Qed.

Lemma priority_contradictions_checkpoints fb1 fb2 c :
  In c (priority_contradictions fb1 fb2) ->
  s_checkpoint (feedback_1 c) = checkpoint fb1 /\
  s_checkpoint (feedback_2 c) = checkpoint fb2 /\
  checkpoint fb1 <> checkpoint fb2.
Proof.
  unfold priority_contradictions. case_bool_decide as Hne; [intros [] |].
  destruct (remove_dups (map PyStr.lower (priority_claims fb1))); [intros [] |].
  destruct (remove_dups (map PyStr.lower (priority_claims fb2))); [intros [] |].
  destruct (existsb _ _); [intros [] |].
  intros [<- | []]. simpl. auto.
Qed.

End ContradictionFacts.

Module ContradictionClaims.
Import Schemas21 Contradictions ContradictionFacts.

(** C9: [detect_feedback_contradictions] returns [[]] for every history
    with fewer than two entries, and in every record it returns the
    [feedback_1] and [feedback_2] checkpoints differ: feedback given at the
    same checkpoint is never reported as contradictory. *)
Theorem detect_contradictions_spec :
  (forall feedback_history : list HumanFeedback,
     (length feedback_history < 2)%nat ->
     detect_feedback_contradictions feedback_history = []) /\
  (forall (feedback_history : list HumanFeedback) (c : Contradiction),
     In c (detect_feedback_contradictions feedback_history) ->
     s_checkpoint (feedback_1 c) <> s_checkpoint (feedback_2 c)).
Proof.
  split.
  - intros h Hlen. unfold detect_feedback_contradictions.
    by rewrite (proj2 (Nat.ltb_lt _ _) Hlen).
  - intros h c. unfold detect_feedback_contradictions.
    destruct (length h <? 2)%nat; [intros [] |].
    intros Hin. apply in_app_iff in Hin as [Hin | Hin];
      apply in_flat_map in Hin as ([fb1 fb2] & _ & Hin).
    + apply guidance_contradictions_checkpoints in Hin as (-> & -> & Hne). exact Hne.
    + apply priority_contradictions_checkpoints in Hin as (-> & -> & Hne). exact Hne.
Qed.

Lemma detect_contradictions_spec_witness :
  let fb1 := mkHumanFeedback "post_thesis_cycle_1" "2025-01-01T10:00:00" revise
               "Make it shorter and concise" [] [] in
  let fb2 := mkHumanFeedback "post_evaluation_cycle_2" "2025-01-01T11:00:00" revise
               "Please add more detail on costs" [] [] in
  (length [fb1] < 2)%nat /\ detect_feedback_contradictions [fb1] = [] /\
  (exists c, In c (detect_feedback_contradictions [fb1; fb2]) /\
             contradiction_type c = "shorter vs longer"%string /\
             s_checkpoint (feedback_1 c) <> s_checkpoint (feedback_2 c)).
Proof.
  intros fb1 fb2. split; [simpl; lia |]. split.
  - apply (proj1 detect_contradictions_spec). simpl. lia.
  - eexists. split; [vm_compute; left; reflexivity |]. split; [reflexivity |].
    apply (proj2 detect_contradictions_spec [fb1; fb2]).
    vm_compute. left. reflexivity.
Defined.

End ContradictionClaims.

(* ------------------------------------------------------------------ *)
(** ** Feedback utilities *)
(* ------------------------------------------------------------------ *)

Module FeedbackFacts.
Import PyStr Schemas21 Feedback21.

Lemma find_none_of_existsb {A} (f : A -> bool) (l : list A) :
  existsb f l = false -> List.find f l = None.
Proof.
  induction l as [|x l IH]; simpl; [done |].
  destruct (f x); [discriminate | exact IH].
Qed.

Lemma validate_claim_list_quality_ok (v v' : list string) :
  validate_claim_list_quality v = inr v' ->
  v' = v /\ existsb (fun item => (String.length (strip item) <? 5)%nat) v = false.
Proof.
  unfold validate_claim_list_quality.
  destruct (20 <? length v)%nat; [discriminate |].
  destruct (List.find _ v) eqn:Hf; [discriminate |].
  destruct (negb _); [discriminate |]. intros [= <-]. split; [done |].
  clear -Hf. induction v as [|x v IH]; simpl in *; [done |].
  destruct (String.length (strip x) <? 5)%nat; [discriminate | exact (IH Hf)].
Qed.

Lemma validate_guidance_ok (d : FeedbackDecision) (g g' : string) :
  validate_guidance_for_revision (Some d) g = inr g' ->
  g' = g /\ (is_revise d = true -> (10 <= String.length (strip g))%nat).
Proof.
  unfold validate_guidance_for_revision.
  destruct (match d with revise => _ | _ => false end) eqn:Hm; [discriminate |].
  destruct (existsb _ _); [discriminate |].
  destruct (2000 <? String.length g)%nat; [discriminate |].
  intros [= ->]. split; [done |].
  intros Hr. destruct d; try discriminate. apply Nat.ltb_ge. exact Hm.
Qed.

(** The successful result of [HumanFeedback(...)] (Phase 2.1 schema). *)
Lemma construct_ok cp ts d g pcs fcs fb :
  construct cp ts d g pcs fcs = inr fb ->
  exists g', fb = mkHumanFeedback cp ts d g' pcs fcs /\
    match g with
    | None => g' = ""%string
    | Some g0 => validate_guidance_for_revision (Some d) g0 = inr g'
    end /\
    validate_claim_list_quality pcs = inr pcs /\ validate_claim_list_quality fcs = inr fcs.
Proof.
  unfold construct. cbv zeta.
  destruct (String.length cp <? 5)%nat; [discriminate |].
  destruct (validate_claim_list_quality pcs) as [e1|pc] eqn:Hp;
  destruct (validate_claim_list_quality fcs) as [e2|fc] eqn:Hf;
  destruct g as [g0|];
  try destruct (validate_guidance_for_revision (Some d) g0) as [e|g'] eqn:Hg;
  try discriminate;
  intros [= <-];
  pose proof (validate_claim_list_quality_ok _ _ Hp) as [-> _];
  pose proof (validate_claim_list_quality_ok _ _ Hf) as [-> _].
  - exists g'. auto.
  - exists ""%string. auto.
Qed.

End FeedbackFacts.

Module FeedbackExtras.
Import PyStr Schemas21 Feedback21 Revision FeedbackFacts.

(** Every Phase 2.1 [HumanFeedback] built with an explicit [guidance]
    passes [validate_feedback_actionability]: the schema validators already
    enforce its three checks (revise guidance of at least 10 characters
    after strip, claims and concerns of at least 5). *)
Theorem actionability_of_validated_feedback :
  forall cp ts d g pcs fcs fb,
    construct cp ts d (Some g) pcs fcs = inr fb ->
    validate_feedback_actionability fb = inr true.
Proof.
  intros cp ts d g pcs fcs fb Hc.
  destruct (construct_ok _ _ _ _ _ _ _ Hc) as (g' & -> & Hg & Hp & Hf).
  apply validate_guidance_ok in Hg as [-> Hlen].
  apply validate_claim_list_quality_ok in Hp as [_ Hp].
  apply validate_claim_list_quality_ok in Hf as [_ Hf].
  unfold validate_feedback_actionability, MIN_FEEDBACK_LENGTH_FOR_ACTIONABILITY;
    cbn [decision guidance priority_claims flagged_concerns].
  destruct (is_revise d) eqn:Hr.
  - rewrite (proj2 (Nat.ltb_ge _ _) (Hlen eq_refl)). simpl andb.
    by rewrite (find_none_of_existsb _ _ Hp), (find_none_of_existsb _ _ Hf).
  - simpl andb. by rewrite (find_none_of_existsb _ _ Hp), (find_none_of_existsb _ _ Hf).
Qed.

Lemma actionability_of_validated_feedback_witness :
  construct "post_thesis_cycle_1" "2025-01-01T10:00:00" revise
    (Some "Focus more on implementation risks") ["Cost estimation"] [] =
    inr (mkHumanFeedback "post_thesis_cycle_1" "2025-01-01T10:00:00" revise
           "Focus more on implementation risks" ["Cost estimation"] []) /\
  validate_feedback_actionability
    (mkHumanFeedback "post_thesis_cycle_1" "2025-01-01T10:00:00" revise
       "Focus more on implementation risks" ["Cost estimation"] []) = inr true.
Proof.
  assert (H : construct "post_thesis_cycle_1" "2025-01-01T10:00:00" revise
    (Some "Focus more on implementation risks") ["Cost estimation"] [] =
    inr (mkHumanFeedback "post_thesis_cycle_1" "2025-01-01T10:00:00" revise
           "Focus more on implementation risks" ["Cost estimation"] [])) by (vm_compute; reflexivity).
  split; [exact H |]. exact (actionability_of_validated_feedback _ _ _ _ _ _ _ H).
Defined.

(** A revise feedback whose [guidance] is left at its default [""] is
    accepted by the Phase 2.1 schema (defaults are not validated), yet
    [validate_feedback_actionability] rejects every such feedback with a
    [FeedbackValidationError]. *)
Theorem actionability_rejects_default_guidance_revise :
  forall cp ts pcs fcs fb,
    construct cp ts revise None pcs fcs = inr fb ->
    validate_feedback_actionability fb =
      inl "Revision requires substantive guidance (min 10 characters). Current guidance: ''"%string.
Proof.
  intros cp ts pcs fcs fb Hc.
  destruct (construct_ok _ _ _ _ _ _ _ Hc) as (g' & -> & -> & _ & _).
  reflexivity.
Qed.

Lemma actionability_rejects_default_guidance_revise_witness :
  construct "post_thesis_cycle_1" "2025-01-01T10:00:00" revise None [] [] =
    inr (mkHumanFeedback "post_thesis_cycle_1" "2025-01-01T10:00:00" revise "" [] []) /\
  validate_feedback_actionability
    (mkHumanFeedback "post_thesis_cycle_1" "2025-01-01T10:00:00" revise "" [] []) =
    inl "Revision requires substantive guidance (min 10 characters). Current guidance: ''"%string.
Proof.
  assert (H : construct "post_thesis_cycle_1" "2025-01-01T10:00:00" revise None [] [] =
    inr (mkHumanFeedback "post_thesis_cycle_1" "2025-01-01T10:00:00" revise "" [] []))
    by (vm_compute; reflexivity).
  split; [exact H |]. exact (actionability_rejects_default_guidance_revise _ _ _ _ _ H).
Defined.

(** [build_feedback_context_for_agent] only uses the most recent relevant
    feedback: appending a feedback whose checkpoint starts with the agent's
    prefix makes the context that of this feedback alone; appending any
    other feedback leaves the context unchanged. *)
Theorem feedback_context_latest_relevant :
  forall (override_data_repr : HumanFeedback -> option string)
         (history : list HumanFeedback) (fb : HumanFeedback) (agent_id : string),
    build_feedback_context_for_agent override_data_repr (history ++ [fb]) agent_id =
      if startswith (checkpoint fb) (agent_checkpoint_prefix agent_id)
      then build_feedback_context_for_agent override_data_repr [fb] agent_id
      else build_feedback_context_for_agent override_data_repr history agent_id.
Proof.
  intros r history fb a. unfold build_feedback_context_for_agent.
  rewrite List.filter_app. simpl List.filter at 2 3.
  destruct (startswith (checkpoint fb) (agent_checkpoint_prefix a)).
  - by rewrite last_snoc.
  - by rewrite app_nil_r.
Qed.

Lemma startswith_empty (s : string) : startswith s "" = true.
Proof. reflexivity. Qed.

(** For an [agent_id] other than the four agents the prefix is [""], which
    every checkpoint starts with: the context is [""] only for an empty
    history, and otherwise is built from the last feedback of the whole
    history, whatever its checkpoint. *)
Theorem feedback_context_unknown_agent :
  forall (override_data_repr : HumanFeedback -> option string) (agent_id : string),
    agent_id <> "Katalizator"%string -> agent_id <> "Sceptyk"%string ->
    agent_id <> "Gubernator"%string -> agent_id <> "Syntezator"%string ->
    build_feedback_context_for_agent override_data_repr [] agent_id = ""%string /\
    forall (history : list HumanFeedback) (fb : HumanFeedback),
      build_feedback_context_for_agent override_data_repr (history ++ [fb]) agent_id =
        build_feedback_context_for_agent override_data_repr [fb] agent_id /\
      build_feedback_context_for_agent override_data_repr [fb] agent_id <> ""%string.
Proof.
  intros r a H1 H2 H3 H4.
  assert (Hp : agent_checkpoint_prefix a = ""%string).
  { unfold agent_checkpoint_prefix.
    rewrite !bool_decide_eq_false_2 by assumption. reflexivity. }
  split; [reflexivity |]. intros history fb. split.
  - unfold build_feedback_context_for_agent.
    rewrite List.filter_app, Hp. simpl List.filter at 2 3.
    rewrite ?startswith_empty. by rewrite last_snoc.
  - unfold build_feedback_context_for_agent. rewrite Hp. simpl List.filter.
    rewrite ?startswith_empty. simpl last. cbv zeta.
    simpl app. simpl join. discriminate.
Qed.

Lemma feedback_context_unknown_agent_witness :
  build_feedback_context_for_agent (fun _ => None)
    ([mkHumanFeedback "post_thesis_cycle_1" "t1" revise "Focus on risks please" [] []]
     ++ [mkHumanFeedback "pre_synthesis_cycle_2" "t2" approve "" [] []]) "Auditor"
  = build_feedback_context_for_agent (fun _ => None)
      [mkHumanFeedback "pre_synthesis_cycle_2" "t2" approve "" [] []] "Auditor".
Proof.
  apply (feedback_context_unknown_agent (fun _ => None) "Auditor"); discriminate.
Defined.

(** [revision_count_per_checkpoint] is overwritten by each update: after a
    successful [track_revision] at [cp] the stored dict holds only [cp], so
    the count of every other checkpoint is gone.  Hence revising two
    checkpoints alternately never reaches the limit: from an empty dict,
    every call of an alternating sequence succeeds with count 1. *)
Theorem track_revision_overwrites_other_counts :
  (forall (counts : option (gmap string Z)) (cp other : string) (upd : gmap string Z),
     track_revision counts cp = inr upd -> other <> cp ->
     merge_revision_counts (default ∅ counts) upd !! other = None) /\
  (forall cps : list string,
     alternating cps ->
     track_sequence (Some ∅) cps = map (fun cp => inr {[cp := 1]}) cps).
Proof.
  split.
  - intros counts cp other upd Ht Hne. unfold track_revision in Ht.
    destruct (_ >=? _); [discriminate |]. injection Ht as <-.
    unfold merge_revision_counts. by apply lookup_singleton_ne.
  - assert (Hgen : forall cps counts,
              alternating cps ->
              match cps with x :: _ => default ∅ counts !! x = None | [] => True end ->
              track_sequence counts cps = map (fun cp => inr {[cp := 1]}) cps).
    { induction cps as [|x rest IH]; intros counts Halt Hx; [done |].
      simpl. unfold track_revision. rewrite Hx. simpl.
      f_equal. apply IH.
      - destruct rest; [done | apply Halt].
      - destruct rest as [|y rest']; [done |]. simpl.
        unfold merge_revision_counts. apply lookup_singleton_ne.
        destruct Halt as [Hxy _]. congruence. }
    intros cps Halt. apply Hgen; [done |]. destruct cps; [done |]. simpl default. apply lookup_empty.
Qed.

Lemma track_revision_overwrites_other_counts_witness :
  alternating ["post_thesis_cycle_1"; "post_evaluation_cycle_1"; "post_thesis_cycle_1";
               "post_evaluation_cycle_1"; "post_thesis_cycle_1"]%string /\
  track_sequence (Some ∅)
    ["post_thesis_cycle_1"; "post_evaluation_cycle_1"; "post_thesis_cycle_1";
     "post_evaluation_cycle_1"; "post_thesis_cycle_1"]%string
  = map (fun cp => inr {[cp := 1]})
      ["post_thesis_cycle_1"; "post_evaluation_cycle_1"; "post_thesis_cycle_1";
       "post_evaluation_cycle_1"; "post_thesis_cycle_1"]%string.
Proof.
  assert (H : alternating ["post_thesis_cycle_1"; "post_evaluation_cycle_1"; "post_thesis_cycle_1";
               "post_evaluation_cycle_1"; "post_thesis_cycle_1"]%string)
    by (simpl; repeat split; discriminate).
  split; [exact H |]. exact (proj2 track_revision_overwrites_other_counts _ H).
Defined.

End FeedbackExtras.

(* ------------------------------------------------------------------ *)
(** ** Effectiveness score ranges *)
(* ------------------------------------------------------------------ *)

Module EffectivenessRangeFacts.
Import PyStr Effectiveness EffectivenessTiers EffectivenessFacts.
Local Open Scope Q_scope.

Lemma filter_length_le' {A} (f : A -> bool) (l : list A) :
  (length (List.filter f l) <= length l)%nat.
Proof. induction l as [|x l IH]; simpl; [lia |]. destruct (f x); simpl; lia. Qed.

Lemma Qnat_ratio_range (a b : nat) :
  (a <= b)%nat -> (0 < b)%nat -> 0 <= Qnat a / Qnat b <= 1.
Proof.
  intros Hab Hb. unfold Qnat.
  assert (Hb' : 0 < inject_Z (Z.of_nat b))
    by (change 0 with (inject_Z 0); rewrite <- Zlt_Qlt; lia).
  split.
  - apply Qle_shift_div_l; [exact Hb' |]. rewrite Qmult_0_l.
    change 0 with (inject_Z 0). rewrite <- Zle_Qle. lia.
  - apply Qle_shift_div_r; [exact Hb' |]. rewrite Qmult_1_l.
    rewrite <- Zle_Qle. lia.
Qed.

Lemma Qnat_filter_ratio {A} (f : A -> bool) (l : list A) :
  (0 < length l)%nat -> 0 <= Qnat (length (List.filter f l)) / Qnat (length l) <= 1.
Proof. intros H. apply Qnat_ratio_range; [apply filter_length_le' | exact H]. Qed.

Lemma structural_range (original revised : string) :
  0 <= compute_structural_change_score original revised <= 1.
Proof.
  unfold compute_structural_change_score.
  destruct (is_empty original || is_empty revised); [lra |].
  destruct (get_char_bigrams _); [lra |].
  destruct (get_char_bigrams _); [lra |].
  apply clamp_range.
Qed.

Lemma structural_identical (x : string) :
  x <> ""%string -> compute_structural_change_score x x = 0.
Proof.
  intros Hx. unfold compute_structural_change_score.
  assert (He : is_empty x = false) by (destruct x; [done | reflexivity]).
  rewrite He. simpl orb. cbv zeta.
  set (n := join " " (split x)).
  destruct (get_char_bigrams (lower n)) as [|b bs] eqn:Hb; [done |].
  apply clamp_zero.
  rewrite set_inter_size_diag, set_union_size_diag.
  simpl length. replace (0 <? S (length bs))%nat with true by reflexivity.
  rewrite (Qnat_div_diag (S (length bs))) by lia.
  rewrite !Z.sub_diag. change (inject_Z (Z.abs 0)) with 0. unfold Qdiv. ring.
Qed.

Lemma keyword_range (revised : string) (feedback : Schemas21.HumanFeedback) :
  0 <= compute_keyword_match_score revised feedback <= 1.
Proof.
  unfold compute_keyword_match_score.
  destruct (is_empty _); [lra |]. cbv zeta.
  destruct (List.filter _ (findall_words _)) as [|k ks]; [lra |].
  match goal with
  | |- context [Qnat (length (List.filter ?f (k :: ks))) / Qnat (length (k :: ks))] =>
      pose proof (Qnat_filter_ratio f (k :: ks) ltac:(simpl; lia)) as Hk
  end.
  destruct (0 <? length (Schemas21.priority_claims feedback))%nat eqn:Ht; [| exact Hk].
  match goal with
  | |- context [Qnat (length (List.filter ?f (Schemas21.priority_claims feedback)))
                / Qnat (length (Schemas21.priority_claims feedback))] =>
      pose proof (Qnat_filter_ratio f (Schemas21.priority_claims feedback)
                    ltac:(apply Nat.ltb_lt; exact Ht)) as Hc
  end.
  lra.
Qed.

Lemma semantic_range list_repr original revised feedback llm :
  0 <= compute_semantic_effectiveness_llm list_repr original revised feedback llm <= 1.
Proof.
  unfold compute_semantic_effectiveness_llm.
  destruct llm as [call|]; [| lra].
  destruct (call _); [| lra].
  destruct (search_number _); [apply clamp_range | lra].
Qed.

Lemma round2_range (q : Q) : 0 <= q <= 1 -> 0 <= round2 q <= 1.
Proof.
  intros Hq. unfold round2, round_half_even.
  set (x := q * 100).
  assert (Hx : 0 <= x <= 100) by (unfold x; lra).
  pose proof (Qfloor_le x) as Hf1. pose proof (Qlt_floor x) as Hf2.
  rewrite inject_Z_plus in Hf2. change (inject_Z 1) with 1 in Hf2.
  set (f := Qfloor x) in *.
  assert (Hf0 : (0 <= f)%Z).
  { cut (-1 < f)%Z; [lia |]. rewrite Zlt_Qlt. change (inject_Z (-1)) with (-1). lra. }
  assert (Hf100 : (f <= 100)%Z). { rewrite Zle_Qle. change (inject_Z 100) with 100. lra. }
  assert (Hz : forall z : Z, (0 <= z <= 100)%Z -> 0 <= inject_Z z / 100 <= 1).
  { intros z [Hz0 Hz1]. rewrite Zle_Qle in Hz0, Hz1.
    change (inject_Z 0) with 0 in Hz0. change (inject_Z 100) with 100 in Hz1.
    unfold Qdiv. change (/ 100) with (1 # 100). lra. }
  destruct (Qle_bool (1 # 2) (x - inject_Z f)) eqn:Hh.
  - apply Qle_bool_iff in Hh.
    assert (Hf99 : (f <= 99)%Z). { cut (f < 100)%Z; [lia |]. rewrite Zlt_Qlt. change (inject_Z 100) with 100. lra. }
    destruct (Qeq_bool _ _); [destruct (Z.even f) |]; apply Hz; lia.
  - apply Hz. lia.
Qed.

End EffectivenessRangeFacts.

Module EffectivenessExtras.
Import PyStr Effectiveness EffectivenessTiers EffectivenessRangeFacts.
Local Open Scope Q_scope.

(** [compute_keyword_match_score] always lies in [[0, 1]]: the keyword and
    claim ratios are counts of a sublist over the list length, and the
    combination [0.4 * k + 0.6 * c] is convex. *)
Theorem keyword_match_score_in_unit_interval :
  forall (revised : string) (feedback : Schemas21.HumanFeedback),
    0 <= compute_keyword_match_score revised feedback <= 1.
Proof. exact keyword_range. Qed.

(** Every score of the dict [compute_feedback_effectiveness] returns lies in
    [[0, 1]] (overall, structural, keyword and, when present, semantic, each
    after [round(_, 2)]), whatever the texts, the feedback and the LLM's
    answer; the [semantic] key is present exactly when [use_llm_scoring]. *)
Theorem feedback_effectiveness_scores_in_unit_interval :
  forall (list_repr : list string -> string) (original revised : string)
         (feedback : Schemas21.HumanFeedback) (use_llm_scoring : bool)
         (llm_callable : option (string -> option string)),
    let r := compute_feedback_effectiveness list_repr original revised feedback
               use_llm_scoring llm_callable in
    0 <= overall r <= 1 /\ 0 <= structural r <= 1 /\ 0 <= keyword_match r <= 1 /\
    (semantic r = None <-> use_llm_scoring = false) /\
    (forall s, semantic r = Some s -> 0 <= s <= 1).
Proof.
  intros list_repr original revised feedback use llm r.
  pose proof (structural_range original revised) as Hs.
  pose proof (keyword_range revised feedback) as Hk.
  pose proof (semantic_range list_repr original revised feedback llm) as Hm.
  unfold r, compute_feedback_effectiveness, STRUCTURAL_CHANGE_WEIGHT, KEYWORD_MATCH_WEIGHT.
  cbv zeta. cbn [overall structural keyword_match semantic].
  split; [| split; [| split; [| split]]].
  - apply round2_range. destruct use; lra.
  - by apply round2_range.
  - by apply round2_range.
  - destruct use; simpl; split; congruence.
  - intros s Hsem. destruct use; [| discriminate].
    injection Hsem as <-. by apply round2_range.
Qed.

(** A revision identical to the (non-empty) original, scored without the
    LLM for a feedback without guidance, gets [overall = 0.3] and the label
    ["Poor"]: the structural score is [0] and the keyword score the neutral
    [0.5], weighted [0.4] and [0.6]. *)
Theorem unchanged_revision_without_guidance_is_poor :
  forall (list_repr : list string -> string) (x : string)
         (feedback : Schemas21.HumanFeedback) (llm_callable : option (string -> option string)),
    x <> ""%string -> Schemas21.guidance feedback = ""%string ->
    overall (compute_feedback_effectiveness list_repr x x feedback false llm_callable) == 3 # 10 /\
    interpretation (compute_feedback_effectiveness list_repr x x feedback false llm_callable)
      = "Poor"%string.
Proof.
  intros list_repr x feedback llm Hx Hg.
  unfold compute_feedback_effectiveness. cbv zeta. cbn [overall interpretation].
  rewrite (structural_identical x Hx).
  unfold compute_keyword_match_score. rewrite Hg. simpl is_empty. cbv iota.
  split; vm_compute; reflexivity.
Qed.

Lemma unchanged_revision_without_guidance_is_poor_witness :
  "Plan A"%string <> ""%string /\
  Schemas21.guidance (Schemas21.mkHumanFeedback "post_thesis_cycle_1" "t" Schemas21.approve "" [] [])
    = ""%string /\
  interpretation
    (compute_feedback_effectiveness (fun _ => ""%string) "Plan A" "Plan A"
       (Schemas21.mkHumanFeedback "post_thesis_cycle_1" "t" Schemas21.approve "" [] []) false None)
    = "Poor"%string.
Proof.
  split; [discriminate |]. split; [reflexivity |].
  apply (unchanged_revision_without_guidance_is_poor (fun _ => ""%string) "Plan A"
           (Schemas21.mkHumanFeedback "post_thesis_cycle_1" "t" Schemas21.approve "" [] []) None);
    [discriminate | reflexivity].
Defined.

End EffectivenessExtras.

(* ------------------------------------------------------------------ *)
(** ** Checkpoint identifiers, snapshots and errors (Phase 2.1) *)
(* ------------------------------------------------------------------ *)

Module CheckpointExtras.
Import Checkpoints21.

Lemma checkpoint_id_inj_helper (k1 k2 : CheckpointKind) (c1 c2 : Z) :
  checkpoint_id k1 c1 = checkpoint_id k2 c2 -> k1 = k2 /\ c1 = c2.
Proof.
  unfold checkpoint_id.
  destruct k1, k2; simpl checkpoint_prefix; intros H;
    try (apply (inj (String.append _)) in H; split; [reflexivity | by apply (inj pretty)]);
    cbv [String.append] in H; congruence.
Qed.

(** Checkpoint identifiers never collide: [CHECKPOINT_NAMES[t].format(n)]
    determines both the checkpoint type and the cycle number, so the keys
    of [checkpoint_snapshots] and of the revision counters are distinct for
    distinct checkpoints (negative cycles included). *)
Theorem checkpoint_id_injective :
  forall (k1 k2 : CheckpointKind) (c1 c2 : Z),
    checkpoint_id k1 c1 = checkpoint_id k2 c2 -> k1 = k2 /\ c1 = c2.
Proof. exact checkpoint_id_inj_helper. Qed.

Lemma checkpoint_id_injective_witness :
  checkpoint_id post_thesis 12 = checkpoint_id post_thesis 12 /\ post_thesis = post_thesis /\ (12 = 12)%Z.
Proof.
  split; [reflexivity |]. apply (checkpoint_id_injective post_thesis post_thesis 12 12). reflexivity.
Defined.

(** Outside observer mode, a Phase 2.1 checkpoint node raises
    [CheckpointError("Failed to create checkpoint <id>...")] exactly when
    the [CheckpointMetadata] validation fails, i.e. when the cycle number is
    below 1 or the intervention mode is not ["reviewer"] or
    ["collaborator"]; otherwise it succeeds. *)
Theorem checkpoint_node_error_iff :
  forall (k : CheckpointKind) (now : string) (s : DebateState),
    intervention_mode s <> "observer" ->
    (checkpoint_node k now s = inl ("Failed to create checkpoint " +:+ checkpoint_id k (cycle_count s))
     <-> (cycle_count s < 1)%Z \/
         (intervention_mode s <> "reviewer" /\ intervention_mode s <> "collaborator")) /\
    ((exists u, checkpoint_node k now s = inr u)
     <-> (1 <= cycle_count s)%Z /\
         (intervention_mode s = "reviewer" \/ intervention_mode s = "collaborator")).
Proof.
  intros k now s Hobs. unfold checkpoint_node, metadata_valid.
  rewrite bool_decide_eq_false_2 by exact Hobs. cbv zeta.
  simpl orb.
  destruct (Z.leb_spec 1 (cycle_count s)) as [Hc | Hc]; simpl andb.
  - case_bool_decide as Hr; [| case_bool_decide as Hco]; simpl orb; cbn iota.
    + split; split.
      * intros H; discriminate H.
      * intros [? | [? _]]; [lia | done].
      * intros _. split; [lia | left; done].
      * intros _. eexists. reflexivity.
    + split; split.
      * intros H; discriminate H.
      * intros [? | [_ ?]]; [lia | done].
      * intros _. split; [lia | right; done].
      * intros _. eexists. reflexivity.
    + split; split.
      * intros _. right. split; done.
      * intros _. reflexivity.
      * intros [? H]; discriminate H.
      * intros [_ [? | ?]]; done.
  - cbn iota. split; split.
    + intros _. left. lia.
    + intros _. reflexivity.
    + intros [? H]; discriminate H.
    + intros [? _]. lia.
Qed.

Lemma checkpoint_node_error_iff_witness :
  let s := mkDebateState "m" 1 0 0 None "reviewer" None [] None ∅ [] in
  intervention_mode s <> "observer" /\
  checkpoint_node post_thesis "t" s = inl ("Failed to create checkpoint " +:+ checkpoint_id post_thesis 0).
Proof.
  intros s. split; [discriminate |].
  apply (proj1 (checkpoint_node_error_iff post_thesis "t" s ltac:(discriminate))).
  left. simpl. lia.
Defined.

(** [checkpoint_snapshots] has no reducer in [DebateState], so each
    checkpoint's update [{checkpoint_id: snapshot}] replaces the whole map:
    after a successful checkpoint and then a second, different one in the
    same cycle, the first checkpoint's snapshot is no longer in the state;
    only the second one is. *)
Theorem second_checkpoint_drops_first_snapshot :
  forall (k1 k2 : CheckpointKind) (now1 now2 : string) (h : heap) (s : DebateState),
    intervention_mode s <> "observer" ->
    metadata_valid (cycle_count s) (intervention_mode s) = true ->
    k1 <> k2 ->
    exists u1 u2,
      checkpoint_node k1 now1 s = inr u1 /\
      checkpoint_node k2 now2 (snd (apply_update h s u1)) = inr u2 /\
      checkpoint_snapshots (snd (apply_update (fst (apply_update h s u1)) (snd (apply_update h s u1)) u2))
        = [(checkpoint_id k2 (cycle_count s), snd (apply_update h s u1))] /\
      lookup_snapshot (checkpoint_id k1 (cycle_count s))
        (checkpoint_snapshots (snd (apply_update (fst (apply_update h s u1))
                                       (snd (apply_update h s u1)) u2))) = None.
Proof.
  intros k1 k2 now1 now2 h s Hobs Hvalid Hk.
  unfold checkpoint_node at 1.
  rewrite bool_decide_eq_false_2 by exact Hobs. cbv zeta. rewrite Hvalid.
  eexists; eexists; split; [reflexivity |].
  unfold checkpoint_node. simpl.
  rewrite bool_decide_eq_false_2 by exact Hobs. rewrite Hvalid.
  split; [reflexivity |]. simpl. split; [reflexivity |].
  rewrite bool_decide_eq_false_2; [reflexivity |].
  intros Heq. apply checkpoint_id_inj_helper in Heq. destruct Heq as [? _]. congruence.
Qed.

Lemma second_checkpoint_drops_first_snapshot_witness :
  let s := mkDebateState "m" 1 0 1 None "reviewer" None [] None ∅ [] in
  exists u1 u2,
    checkpoint_node post_thesis "t1" s = inr u1 /\
    checkpoint_node post_evaluation "t2" (snd (apply_update {[1%positive := []]} s u1)) = inr u2 /\
    lookup_snapshot "post_thesis_cycle_1"
      (checkpoint_snapshots (snd (apply_update (fst (apply_update {[1%positive := []]} s u1))
                                     (snd (apply_update {[1%positive := []]} s u1)) u2))) = None.
Proof.
  intros s.
  destruct (second_checkpoint_drops_first_snapshot post_thesis post_evaluation "t1" "t2"
              {[1%positive := []]} s) as [u1 [u2 [H1 [H2 [_ H4]]]]];
    [discriminate | reflexivity | discriminate |].
  exists u1, u2. split; [exact H1 | split; [exact H2 | exact H4]].
Defined.

End CheckpointExtras.

(* ------------------------------------------------------------------ *)
(** ** Shape of the contradiction records *)
(* ------------------------------------------------------------------ *)

Module ContradictionExtras.
Import PyStr Schemas21 Contradictions.

Lemma ordered_pairs_in {A} (l : list A) (a b : A) :
  In (a, b) (ordered_pairs l) -> In a l /\ In b l.
Proof.
  induction l as [|x xs IH]; simpl; [intros [] |].
  intros Hin. apply in_app_iff in Hin as [Hin | Hin].
  - apply in_map_iff in Hin as (y & Hy & Hin). injection Hy as <- <-. auto.
  - destruct (IH Hin). auto.
Qed.

Lemma guidance_contradictions_shape fb1 fb2 c :
  In c (guidance_contradictions fb1 fb2) ->
  severity c = "moderate" /\
  feedback_1 c = guidance_summary fb1 /\ feedback_2 c = guidance_summary fb2 /\
  exists ga gb, In (ga, gb) contradiction_pairs /\
    ((contradiction_type c = first_word ga +:+ " vs " +:+ first_word gb /\
      existsb (contains (lower (guidance fb1))) ga = true /\
      existsb (contains (lower (guidance fb2))) gb = true) \/
     (contradiction_type c = first_word gb +:+ " vs " +:+ first_word ga /\
      existsb (contains (lower (guidance fb1))) gb = true /\
      existsb (contains (lower (guidance fb2))) ga = true)).
Proof.
  unfold guidance_contradictions. case_bool_decide as Hne; [intros [] |].
  destruct (is_empty (guidance fb1)); [intros [] |].
  destruct (is_empty (guidance fb2)); [rewrite orb_true_r; intros [] |].
  destruct (_ || _); [intros [] |].
  intros Hin. apply in_flat_map in Hin as ([ga gb] & Hp & Hin).
  apply in_app_iff in Hin as [Hin | Hin];
    match type of Hin with In _ (if ?b then _ else _) => destruct b eqn:Eb end;
    try destruct Hin as [<- | []]; try destruct Hin;
    apply andb_prop in Eb as [Ea Eb'];
    (split; [reflexivity | split; [reflexivity | split; [reflexivity |]]]);
    exists ga, gb; split; auto.
Qed.

Lemma priority_contradictions_shape fb1 fb2 c :
  In c (priority_contradictions fb1 fb2) ->
  severity c = "low" /\ contradiction_type c = "shifting_priorities" /\
  feedback_1 c = claims_summary fb1 /\ feedback_2 c = claims_summary fb2 /\
  priority_claims fb1 <> [] /\ priority_claims fb2 <> [] /\
  forall x, In x (map lower (priority_claims fb1)) -> ~ In x (map lower (priority_claims fb2)).
Proof.
  unfold priority_contradictions. case_bool_decide as Hne; [intros [] |].
  destruct (remove_dups (map lower (priority_claims fb1))) as [|y1 ys1] eqn:E1; [intros [] |].
  destruct (remove_dups (map lower (priority_claims fb2))) as [|y2 ys2] eqn:E2; [intros [] |].
  destruct (existsb _ _) eqn:Ex; [intros [] |].
  intros [<- | []]. simpl.
  do 4 (split; [reflexivity |]).
  split; [intros Hp; rewrite Hp in E1; discriminate |].
  split; [intros Hp; rewrite Hp in E2; discriminate |].
  intros x Hx1 Hx2.
  assert (Hr1 : x ∈ y1 :: ys1) by (rewrite <- E1, elem_of_remove_dups; by apply list_elem_of_In).
  assert (Hr2 : x ∈ y2 :: ys2) by (rewrite <- E2, elem_of_remove_dups; by apply list_elem_of_In).
  apply list_elem_of_In in Hr1.
  assert (Hy : existsb (fun c => bool_decide (c ∈ y2 :: ys2)) (y1 :: ys1) = true).
  { apply existsb_exists. exists x. split; [exact Hr1 |]. by apply bool_decide_eq_true_2. }
  congruence.
Qed.

(** Every record [detect_feedback_contradictions] returns compares two
    entries of the history and is one of two kinds: a ["moderate"]
    guidance conflict of type ["a vs b"], built from a pair of the table
    [contradiction_pairs] when the first guidance (lower-cased) contains a
    word of one group and the second a word of the other; or a ["low"]
    ["shifting_priorities"] record, built when both feedbacks have priority
    claims and no claim of the first equals (case-insensitively) a claim of
    the second. *)
Theorem contradiction_records_shape :
  forall (feedback_history : list HumanFeedback) (c : Contradiction),
    In c (detect_feedback_contradictions feedback_history) ->
    exists fb1 fb2, In fb1 feedback_history /\ In fb2 feedback_history /\
      ((severity c = "moderate" /\
        feedback_1 c = guidance_summary fb1 /\ feedback_2 c = guidance_summary fb2 /\
        exists ga gb, In (ga, gb) contradiction_pairs /\
          ((contradiction_type c = first_word ga +:+ " vs " +:+ first_word gb /\
            existsb (contains (lower (guidance fb1))) ga = true /\
            existsb (contains (lower (guidance fb2))) gb = true) \/
           (contradiction_type c = first_word gb +:+ " vs " +:+ first_word ga /\
            existsb (contains (lower (guidance fb1))) gb = true /\
            existsb (contains (lower (guidance fb2))) ga = true))) \/
       (severity c = "low" /\ contradiction_type c = "shifting_priorities" /\
        feedback_1 c = claims_summary fb1 /\ feedback_2 c = claims_summary fb2 /\
        priority_claims fb1 <> [] /\ priority_claims fb2 <> [] /\
        forall x, In x (map lower (priority_claims fb1)) ->
                  ~ In x (map lower (priority_claims fb2)))).
Proof.
  intros hist c. unfold detect_feedback_contradictions.
  destruct (length hist <? 2)%nat; [intros [] |].
  intros Hin. apply in_app_iff in Hin as [Hin | Hin];
    apply in_flat_map in Hin as ([fb1 fb2] & Hp & Hin);
    apply ordered_pairs_in in Hp as [H1 H2]; exists fb1, fb2; do 2 (split; [assumption |]).
  - left. by apply guidance_contradictions_shape.
  - right. by apply priority_contradictions_shape.
Qed.

Lemma contradiction_records_shape_witness :
  let fb1 := mkHumanFeedback "post_thesis_cycle_1" "t1" revise "Make it shorter" ["Cost"] [] in
  let fb2 := mkHumanFeedback "post_evaluation_cycle_2" "t2" revise "Add more detail" ["Risk"] [] in
  let c := mkContradiction (claims_summary fb1) (claims_summary fb2) "shifting_priorities" "low" in
  In c (detect_feedback_contradictions [fb1; fb2]) /\ severity c = "low".
Proof.
  intros fb1 fb2 c.
  assert (Hin : In c (detect_feedback_contradictions [fb1; fb2]))
    by (vm_compute; right; left; reflexivity).
  split; [exact Hin |].
  destruct (contradiction_records_shape [fb1; fb2] c Hin)
    as (f1 & f2 & _ & _ & [[Hs _] | [Hs _]]); [discriminate Hs | exact Hs].
Defined.

End ContradictionExtras.

(* ------------------------------------------------------------------ *)
(** ** Workflow consistency of [FinalPlan] *)
(* ------------------------------------------------------------------ *)

Module WorkflowExtras.
Import Workflow.

Lemma check_dependencies_none (step : WorkflowStep) (ids deps : list Z) :
  check_dependencies step ids deps = None <->
  forall d, In d deps -> In d ids /\ (d < step_id step)%Z.
Proof.
  induction deps as [|d ds IH]; simpl.
  - split; [intros _ d [] | reflexivity].
  - case_bool_decide as Hd; simpl negb; cbn iota.
    + destruct (Z.leb_spec (step_id step) d) as [Hle | Hlt].
      * split; [discriminate | intros H]. specialize (H d (or_introl eq_refl)). lia.
      * rewrite IH. split.
        -- intros H d' [<- | Hd']; [split; [by apply list_elem_of_In | lia] | by apply H].
        -- intros H d' Hd'. apply H. by right.
    + split; [discriminate | intros H]. destruct (H d (or_introl eq_refl)) as [Hin _].
      exfalso. apply Hd. by apply list_elem_of_In.
Qed.

Lemma check_steps_none (ids : list Z) (steps : list WorkflowStep) :
  check_steps ids steps = None <->
  forall step, In step steps -> check_dependencies step ids (dependencies step) = None.
Proof.
  induction steps as [|st sts IH]; simpl.
  - split; [intros _ ? [] | reflexivity].
  - destruct (check_dependencies st ids (dependencies st)) as [e|] eqn:E.
    + split; [discriminate | intros H]. rewrite (H st (or_introl eq_refl)) in E. discriminate.
    + rewrite IH. split.
      * intros H s' [<- | Hs']; [exact E | by apply H].
      * intros H s' Hs'. apply H. by right.
Qed.

Definition workflow_ok (v : list WorkflowStep) : Prop :=
  forall step d, In step v -> In d (dependencies step) ->
    (exists step', In step' v /\ step_id step' = d) /\ (d < step_id step)%Z.

Lemma validate_workflow_ok (v : list WorkflowStep) :
  validate_workflow_consistency v = inr v <-> workflow_ok v.
Proof.
  unfold validate_workflow_consistency, workflow_ok.
  destruct (check_steps (map step_id v) v) as [e|] eqn:E.
  - split; [discriminate | intros H].
    assert (Hn : check_steps (map step_id v) v = None).
    { apply check_steps_none. intros step Hs. apply check_dependencies_none.
      intros d Hd. destruct (H step d Hs Hd) as [(st' & Hin & <-) Hlt].
      split; [by apply in_map | exact Hlt]. }
    congruence.
  - split; [intros _ | reflexivity].
    intros step d Hs Hd.
    pose proof (proj1 (check_steps_none _ _) E step Hs) as Hc.
    destruct (proj1 (check_dependencies_none _ _ _) Hc d Hd) as [Hin Hlt].
    apply in_map_iff in Hin as (st' & <- & Hin). split; [by exists st' | exact Hlt].
Qed.

(** [validate_workflow_consistency] accepts a workflow (returning it
    unchanged) exactly when every dependency of every step names the
    [step_id] of some step of the workflow and is smaller than the
    dependent step's own [step_id]. *)
Theorem workflow_validation_characterization :
  forall v : list WorkflowStep,
    validate_workflow_consistency v = inr v <->
    forall step d, In step v -> In d (dependencies step) ->
      (exists step', In step' v /\ step_id step' = d) /\ (d < step_id step)%Z.
Proof. exact validate_workflow_ok. Qed.

(** A workflow [validate_workflow_consistency] accepts has an acyclic
    dependency relation: no step depends, directly or transitively, on
    itself, because the [step_id] strictly decreases along every
    dependency edge. *)
Theorem accepted_workflow_acyclic :
  forall v v' : list WorkflowStep,
    validate_workflow_consistency v = inr v' ->
    forall x, ~ clos_trans Z (depends_on v) x x.
Proof.
  intros v v' Hv.
  assert (Hok : workflow_ok v).
  { apply validate_workflow_ok. unfold validate_workflow_consistency in *.
    destruct (check_steps _ _); [discriminate | reflexivity]. }
  assert (Hdec : forall a b, clos_trans Z (depends_on v) a b -> (b < a)%Z).
  { intros a b Hab. induction Hab as [a b (st & Hs & <- & Hd) | a b c _ IH1 _ IH2].
    - exact (proj2 (Hok st b Hs Hd)).
    - lia. }
  intros x Hx. specialize (Hdec x x Hx). lia.
Qed.

Lemma accepted_workflow_acyclic_witness :
  let v := [mkWorkflowStep 1 "Gather requirements from users" "Analyst" [];
            mkWorkflowStep 2 "Design the solution architecture" "Architect" [1];
            mkWorkflowStep 3 "Implement and test the solution" "Engineer" [1; 2]] in
  validate_workflow_consistency v = inr v /\ ~ clos_trans Z (depends_on v) 3%Z 3%Z.
Proof.
  intros v. assert (H : validate_workflow_consistency v = inr v) by (vm_compute; reflexivity).
  split; [exact H | exact (accepted_workflow_acyclic v v H 3%Z)].
Defined.

End WorkflowExtras.

(* ------------------------------------------------------------------ *)
(** ** Review package generation *)
(* ------------------------------------------------------------------ *)

Module ReviewFacts.
Import PyStr StrFacts ReviewGen.
Local Open Scope Q_scope.

Lemma length_list_ascii (s : string) : length (list_ascii_of_string s) = String.length s.
Proof. induction s as [|c s IH]; simpl; congruence. Qed.

Lemma length_string_of_list (l : list ascii) : String.length (string_of_list_ascii l) = length l.
Proof. induction l as [|c l IH]; simpl; congruence. Qed.

Lemma string_length_app (a b : string) :
  String.length (a +:+ b) = (String.length a + String.length b)%nat.
Proof.
  induction a as [|c a IH]; [reflexivity |].
  change (String c a +:+ b) with (String c (a +:+ b)). simpl. congruence.
Qed.

Lemma list_ascii_app (a b : string) :
  list_ascii_of_string (a +:+ b) = list_ascii_of_string a ++ list_ascii_of_string b.
Proof.
  induction a as [|c a IH]; [reflexivity |].
  change (String c a +:+ b) with (String c (a +:+ b)). simpl. congruence.
Qed.

Lemma drop_spaces_length (l : list ascii) : (length (drop_spaces l) <= length l)%nat.
Proof.
  destruct (drop_spaces_suffix l) as [p Hp].
  rewrite Hp at 2. rewrite length_app. lia.
Qed.

Lemma strip_length (s : string) : (String.length (strip s) <= String.length s)%nat.
Proof.
  unfold strip. rewrite length_string_of_list, <- length_list_ascii, length_rev.
  etransitivity; [apply drop_spaces_length |]. rewrite length_rev. apply drop_spaces_length.
Qed.

Lemma drop_spaces_id (l : list ascii) :
  (forall c rest, l = c :: rest -> is_space c = false) -> drop_spaces l = l.
Proof. destruct l as [|c l]; simpl; [done |]. intros H. by rewrite (H c l eq_refl). Qed.

Lemma strip_id (s : string) :
  (forall c rest, list_ascii_of_string s = c :: rest -> is_space c = false) ->
  (forall c rest, list_ascii_of_string s = rest ++ [c] -> is_space c = false) ->
  strip s = s.
Proof.
  intros H1 H2. unfold strip.
  rewrite (drop_spaces_id _ H1).
  rewrite (drop_spaces_id (rev (list_ascii_of_string s))).
  - by rewrite rev_involutive, string_of_list_ascii_of_string.
  - intros c rest Hr. apply (H2 c (rev rest)).
    by rewrite <- (rev_involutive (list_ascii_of_string s)), Hr.
Qed.

Lemma strip_idem (s : string) : strip (strip s) = strip s.
Proof. apply strip_id; [apply strip_first | apply strip_last]. Qed.

Lemma split_on_go_no_sep (sep : ascii) (l : list ascii) :
  forall cur piece, ~ In sep cur -> In piece (split_on_go sep l cur) -> ~ In sep piece.
Proof.
  induction l as [|c l IH]; intros cur piece Hcur Hin; simpl in Hin.
  - destruct Hin as [<- | []]. by rewrite <- in_rev.
  - case_bool_decide as Hc.
    + destruct Hin as [<- | Hin]; [by rewrite <- in_rev |].
      apply (IH [] piece); [intros [] | exact Hin].
    + apply (IH (c :: cur) piece); [| exact Hin].
      intros [Heq | Hs]; [by apply Hc | by apply Hcur].
Qed.

Lemma take_In {A} (n : nat) (l : list A) (x : A) : In x (take n l) -> In x l.
Proof.
  revert l. induction n as [|n IH]; intros [|y l]; simpl; try tauto.
  intros [-> | H]; [by left | right; by apply IH].
Qed.

Lemma take_len {A} (n : nat) (l : list A) : (length (take n l) <= n)%nat.
Proof. revert l. induction n as [|n IH]; intros [|y l]; simpl; try lia. specialize (IH l). lia. Qed.

Lemma substring0_length (n : nat) (s : string) : (String.length (substring 0 n s) <= n)%nat.
Proof.
  revert s. induction n as [|n IH]; intros [|c s]; simpl; try lia. specialize (IH s). lia.
Qed.

Lemma make_highlight_some cid content conf r h :
  make_highlight cid content conf r = Some h ->
  h = mkReviewHighlight cid content conf r /\ 0 <= conf <= 1.
Proof.
  unfold make_highlight.
  destruct (5000 <? String.length content)%nat; [discriminate |].
  destruct (Qle_bool 0 conf) eqn:E1; [| discriminate].
  destruct (Qle_bool conf 1) eqn:E2; [| discriminate].
  intros [= <-]. apply Qle_bool_iff in E1, E2. auto.
Qed.

Lemma make_highlight_ok cid content conf r :
  (String.length content <= 5000)%nat -> 0 <= conf <= 1 ->
  make_highlight cid content conf r = Some (mkReviewHighlight cid content conf r).
Proof.
  intros Hl [H0 H1]. unfold make_highlight.
  replace (5000 <? String.length content)%nat with false by (symmetry; apply Nat.ltb_ge; lia).
  apply Qle_bool_iff in H0, H1. by rewrite H0, H1.
Qed.

Lemma find_containing_some cid contributions c :
  find_containing cid contributions = Some c ->
  In c contributions /\ contains (Checkpoints21.content c) cid = true.
Proof. unfold find_containing. intros H. apply find_some in H. exact H. Qed.

(** What the loop over the low-confidence claims builds: every highlight
    comes from one of the claims and from a contribution containing it;
    when the confidences are in range no [ValidationError] is raised. *)
Definition low_confidence_ok (contributions : list AgentContribution)
    (cs : list (string * Q)) (h : ReviewHighlight) : Prop :=
  reason h = "low_confidence" /\ In (claim_id h, confidence h) cs /\
  0 <= confidence h <= 1 /\
  exists c, In c contributions /\ contains (Checkpoints21.content c) (claim_id h) = true /\
            hl_content h = substring 0 500 (Checkpoints21.content c).

Lemma highlights_loop (contributions : list AgentContribution) (cs : list (string * Q)) :
  let go := fix go (cs : list (string * Q)) : option (list ReviewHighlight) :=
        match cs with
        | [] => Some []
        | (cid, conf) :: rest =>
            match find_containing cid contributions with
            | None => go rest
            | Some contrib =>
                match make_highlight cid (substring 0 500 (Checkpoints21.content contrib)) conf
                        "low_confidence" with
                | None => None
                | Some h => option_map (cons h) (go rest)
                end
            end
        end in
  (forall hs, go cs = Some hs -> forall h, In h hs -> low_confidence_ok contributions cs h) /\
  ((forall cid conf, In (cid, conf) cs -> 0 <= conf <= 1) -> is_Some (go cs)).
Proof.
  intros go. induction cs as [|[cid conf] rest [IH1 IH2]]; simpl.
  - split; [intros hs [= <-] h [] | intros _; eexists; reflexivity].
  - destruct (find_containing cid contributions) as [c|] eqn:Ef.
    + destruct (find_containing_some _ _ _ Ef) as [Hc Hcon].
      destruct (make_highlight cid _ conf _) as [h0|] eqn:Em.
      * destruct (make_highlight_some _ _ _ _ _ Em) as [-> Hr]. split.
        -- intros hs Hhs h Hin.
           destruct (go rest) as [hs'|] eqn:Eg; simpl in Hhs; [| discriminate].
           injection Hhs as <-. destruct Hin as [<- | Hin].
           ++ split; [reflexivity |]. split; [by left |]. split; [exact Hr |].
              exists c. split; [exact Hc | split; [exact Hcon | reflexivity]].
           ++ destruct (IH1 hs' eq_refl h Hin) as (H1 & H2 & H3 & H4).
              split; [exact H1 | split; [by right | split; [exact H3 | exact H4]]].
        -- intros Hconf. destruct IH2 as [hs' Hg]; [intros ci co Hi; apply (Hconf ci co); by right |].
           fold go. rewrite Hg. eexists. reflexivity.
      * split; [discriminate |].
        intros Hconf. exfalso.
        rewrite make_highlight_ok in Em; [discriminate | pose proof (substring0_length 500 (Checkpoints21.content c)); lia |].
        apply (Hconf cid conf). by left.
    + split.
      * intros hs Hhs h Hin. destruct (IH1 hs Hhs h Hin) as (H1 & H2 & H3 & H4).
        split; [exact H1 | split; [by right | split; [exact H3 | exact H4]]].
      * intros Hconf. apply IH2. intros ci co Hi. apply (Hconf ci co). by right.
Qed.

End ReviewFacts.

Module ReviewExtras.
Import PyStr StrFacts ReviewGen ReviewFacts.
Local Open Scope Q_scope.

(** [ReviewPackage.summary] validation: an accepted summary is the input
    with surrounding whitespace stripped and has between 50 and 2000
    characters; validating the stored summary again accepts it unchanged. *)
Theorem summary_validation_normalizes :
  forall v s : string,
    validate_summary v = inr s ->
    s = strip v /\ (50 <= String.length s <= 2000)%nat /\ validate_summary s = inr s.
Proof.
  intros v s. unfold validate_summary.
  destruct (2000 <? String.length v)%nat eqn:E1; [discriminate |].
  destruct (String.length (strip v) <? 50)%nat eqn:E2; [discriminate |].
  intros [= <-]. apply Nat.ltb_ge in E1, E2.
  pose proof (strip_length v) as Hl.
  split; [reflexivity |]. split; [lia |].
  rewrite strip_idem.
  replace (2000 <? String.length (strip v))%nat with false by (symmetry; apply Nat.ltb_ge; lia).
  replace (String.length (strip v) <? 50)%nat with false by (symmetry; apply Nat.ltb_ge; lia).
  reflexivity.
Qed.

Lemma summary_validation_normalizes_witness :
  validate_summary "   The debate reached consensus on the main thesis after two cycles.  "
    = inr "The debate reached consensus on the main thesis after two cycles." /\
  validate_summary "The debate reached consensus on the main thesis after two cycles."
    = inr "The debate reached consensus on the main thesis after two cycles.".
Proof.
  assert (H : validate_summary "   The debate reached consensus on the main thesis after two cycles.  "
              = inr "The debate reached consensus on the main thesis after two cycles.")
    by (vm_compute; reflexivity).
  split; [exact H |].
  exact (proj2 (proj2 (summary_validation_normalizes _ _ H))).
Defined.

(** The fallback summary used when the LLM fails always passes the
    [ReviewPackage.summary] validation unchanged, for any of the four agent
    names, as long as the printed cycle number has at most 1900 digits. *)
Theorem fallback_summary_passes_validation :
  forall c : AgentContribution,
    In (Checkpoints21.agent_id c) ["Katalizator"; "Sceptyk"; "Gubernator"; "Syntezator"] ->
    (String.length (pretty (Checkpoints21.contrib_cycle c)) <= 1900)%nat ->
    validate_summary (fallback_summary c) = inr (fallback_summary c).
Proof.
  intros c Hag Hlen.
  set (a := Checkpoints21.agent_id c) in *.
  set (p := pretty (Checkpoints21.contrib_cycle c)) in *.
  assert (Ha : (1 <= String.length a <= 11)%nat /\
               forall ch rest, list_ascii_of_string a = ch :: rest -> is_space ch = false).
  { destruct Hag as [<- | [<- | [<- | [<- | []]]]];
      (split; [simpl; lia | intros ch rest H; injection H as <- _; reflexivity]). }
  destruct Ha as [Ha Hhead].
  assert (Hs : strip (fallback_summary c) = fallback_summary c).
  { apply strip_id; unfold fallback_summary; fold a p; rewrite !list_ascii_app.
    - intros ch rest H. destruct (list_ascii_of_string a) as [|ch' rest'] eqn:Ea.
      + apply (f_equal length) in Ea. rewrite length_list_ascii in Ea. simpl in Ea. lia.
      + injection H as Hc _. rewrite <- Hc. by apply (Hhead ch' rest').
    - intros ch rest H.
      set (suffix := ". Review the output below for key claims and concerns.") in H.
      assert (Hsuf : list_ascii_of_string suffix
                     = removelast (list_ascii_of_string suffix) ++ ["."%char])
        by reflexivity.
      rewrite Hsuf, !app_assoc in H. apply app_inj_tail in H as [_ <-]. reflexivity. }
  assert (HL : String.length (fallback_summary c) = (String.length a + 29 + String.length p + 54)%nat).
  { unfold fallback_summary. fold a p. rewrite !string_length_app. simpl. lia. }
  unfold validate_summary. rewrite Hs, HL.
  replace (2000 <? String.length a + 29 + String.length p + 54)%nat with false
    by (symmetry; apply Nat.ltb_ge; lia).
  replace (String.length a + 29 + String.length p + 54 <? 50)%nat with false
    by (symmetry; apply Nat.ltb_ge; lia).
  reflexivity.
Qed.

Lemma fallback_summary_passes_validation_witness :
  validate_summary
    (fallback_summary (Checkpoints21.mkAgentContribution "Sceptyk" "x" "Antithesis" 3 "r"))
  = inr "Sceptyk completed analysis in cycle 3. Review the output below for key claims and concerns.".
Proof.
  rewrite (fallback_summary_passes_validation
             (Checkpoints21.mkAgentContribution "Sceptyk" "x" "Antithesis" 3 "r")).
  - reflexivity.
  - simpl. tauto.
  - vm_compute. lia.
Defined.

(** [_extract_key_points(summary, max_points)] returns at most
    [max_points] points, each non-empty, already stripped of surrounding
    whitespace, and containing no period. *)
Theorem key_points_clean :
  forall (summary : string) (max_points : nat),
    (length (extract_key_points summary max_points) <= max_points)%nat /\
    forall p, In p (extract_key_points summary max_points) ->
      p <> ""%string /\ strip p = p /\ ~ In "."%char (list_ascii_of_string p).
Proof.
  intros summary n. unfold extract_key_points. cbv zeta.
  split; [apply take_len |].
  intros p Hp. apply take_In, filter_In in Hp as [Hp Hne].
  apply in_map_iff in Hp as (q & <- & Hq).
  split; [intros He; rewrite He in Hne; discriminate |].
  split; [apply strip_idem |].
  intros Hdot. apply strip_in in Hdot.
  unfold split_on in Hq. apply in_map_iff in Hq as (piece & <- & Hpiece).
  rewrite list_ascii_of_string_of_list_ascii in Hdot.
  exact (split_on_go_no_sep "."%char _ [] piece (fun H => H) Hpiece Hdot).
Qed.

(** [_extract_highlights] on a non-empty contribution list, when every
    low-confidence claim of the Layer 2 data has a confidence in
    [[0, 1]], raises no error and returns at most 10 highlights, each with
    at most 500 characters of content and a confidence in [[0, 1]]. *)
Theorem extract_highlights_valid :
  forall (contributions : list AgentContribution) (layer2_data : option Layer2Data),
    contributions <> [] ->
    (forall d, layer2_data = Some d ->
       forall cid conf, In (cid, conf) (low_confidence_claims d) -> 0 <= conf <= 1) ->
    exists hs, extract_highlights contributions layer2_data = Some hs /\
      (length hs <= 10)%nat /\
      forall h, In h hs -> (String.length (hl_content h) <= 500)%nat /\ 0 <= confidence h <= 1.
Proof.
  intros contributions l2 Hne Hconf. unfold extract_highlights.
  assert (Hfb : match last contributions with
                | None => None
                | Some last_c =>
                    match make_highlight
                            (Checkpoints21.agent_id last_c +:+ "_" +:+
                             pretty (Checkpoints21.contrib_cycle last_c) +:+ "_main")
                            (substring 0 500 (Checkpoints21.content last_c)) (8 # 10) "high_impact" with
                    | Some h => Some (take 10 [h])
                    | None => None
                    end
                end = Some (match last contributions with
                            | Some last_c =>
                                [mkReviewHighlight
                                   (Checkpoints21.agent_id last_c +:+ "_" +:+
                                    pretty (Checkpoints21.contrib_cycle last_c) +:+ "_main")
                                   (substring 0 500 (Checkpoints21.content last_c)) (8 # 10)
                                   "high_impact"]
                            | None => [] end) /\
                forall h, In h (match last contributions with
                                | Some last_c =>
                                    [mkReviewHighlight
                                       (Checkpoints21.agent_id last_c +:+ "_" +:+
                                        pretty (Checkpoints21.contrib_cycle last_c) +:+ "_main")
                                       (substring 0 500 (Checkpoints21.content last_c)) (8 # 10)
                                       "high_impact"]
                                | None => [] end) ->
                  (String.length (hl_content h) <= 500)%nat /\ 0 <= confidence h <= 1).
  { destruct (last contributions) as [lc|] eqn:El.
    - rewrite make_highlight_ok.
      + split; [reflexivity |]. intros h [<- | []]. simpl.
        split; [apply substring0_length | split; discriminate].
      + pose proof (substring0_length 500 (Checkpoints21.content lc)). lia.
      + split; discriminate.
    - exfalso. apply Hne. by apply last_None. }
  destruct Hfb as [Hfb Hfbh].
  destruct l2 as [d|].
  - destruct (low_confidence_claims d) as [|p ps] eqn:Ecl.
    + rewrite Hfb. eexists. split; [reflexivity |]. split; [| exact Hfbh].
      destruct (last contributions); simpl; lia.
    + destruct (highlights_loop contributions (take 10 (p :: ps))) as [Hok Hsome].
      destruct Hsome as [hs Hg].
      { intros cid conf Hin. apply (Hconf d eq_refl cid conf).
        rewrite Ecl. exact (take_In _ _ _ Hin). }
      rewrite Hg. simpl option_map. eexists. split; [reflexivity |].
      split; [apply take_len |].
      intros h Hh. apply take_In in Hh.
      destruct (Hok hs Hg h Hh) as (_ & _ & Hc & c & _ & _ & ->).
      split; [apply substring0_length | exact Hc].
  - rewrite Hfb. eexists. split; [reflexivity |]. split; [| exact Hfbh].
    destruct (last contributions); simpl; lia.
Qed.

Lemma extract_highlights_valid_witness :
  let cs := [Checkpoints21.mkAgentContribution "Katalizator" "Claim A: markets grow" "Thesis" 1 "r"] in
  let d := mkLayer2Data (1 # 2) [("Claim A", 3 # 10)] in
  cs <> [] /\ exists hs, extract_highlights cs (Some d) = Some hs /\ (length hs <= 10)%nat.
Proof.
  intros cs d. split; [discriminate |].
  destruct (extract_highlights_valid cs (Some d)) as (hs & H1 & H2 & _).
  - discriminate.
  - intros d' [= <-] cid conf [[= <- <-] | []]. split; discriminate.
  - exists hs. split; [exact H1 | exact H2].
Defined.

(** When the Layer 2 data lists low-confidence claims, every highlight
    [_extract_highlights] returns has reason ["low_confidence"], carries a
    claim id and confidence among the first 10 listed claims, and shows the
    first 500 characters of a contribution whose content contains that
    claim id. *)
Theorem extract_highlights_low_confidence_origin :
  forall (contributions : list AgentContribution) (d : Layer2Data) (hs : list ReviewHighlight),
    low_confidence_claims d <> [] ->
    extract_highlights contributions (Some d) = Some hs ->
    forall h, In h hs ->
      reason h = "low_confidence" /\
      In (claim_id h, confidence h) (take 10 (low_confidence_claims d)) /\
      exists c, In c contributions /\ contains (Checkpoints21.content c) (claim_id h) = true /\
                hl_content h = substring 0 500 (Checkpoints21.content c).
Proof.
  intros contributions d hs Hne. unfold extract_highlights.
  destruct (low_confidence_claims d) as [|p ps] eqn:Ecl; [done |].
  destruct (highlights_loop contributions (take 10 (p :: ps))) as [Hok _].
  match goal with |- option_map _ ?g = _ -> _ => destruct g as [hs0|] eqn:Eg end;
    [| discriminate].
  intros [= <-] h Hh. apply take_In in Hh.
  destruct (Hok hs0 eq_refl h Hh) as (H1 & H2 & _ & H4). auto.
Qed.

Lemma extract_highlights_low_confidence_origin_witness :
  reason (mkReviewHighlight "Claim A" "Claim A: markets grow" (3 # 10) "low_confidence")
    = "low_confidence".
Proof.
  exact (proj1 (extract_highlights_low_confidence_origin
                  [Checkpoints21.mkAgentContribution "Katalizator" "Claim A: markets grow" "Thesis" 1 "r"]
                  (mkLayer2Data (1 # 2) [("Claim A", 3 # 10)]) _ ltac:(discriminate)
                  ltac:(vm_compute; reflexivity)
                  (mkReviewHighlight "Claim A" "Claim A: markets grow" (3 # 10) "low_confidence")
                  (or_introl eq_refl))).
Defined.

(** Without low-confidence claims, [_extract_highlights] falls back to one
    ["high_impact"] highlight of the last contribution (claim id
    [<agent_id>_<cycle>_main], first 500 characters, confidence 0.8), and
    raises [IndexError] on an empty contribution list. *)
Theorem extract_highlights_fallback :
  forall (contributions : list AgentContribution) (layer2_data : option Layer2Data),
    (forall d, layer2_data = Some d -> low_confidence_claims d = []) ->
    (contributions = [] -> extract_highlights contributions layer2_data = None) /\
    (forall cs c, contributions = cs ++ [c] ->
       extract_highlights contributions layer2_data =
       Some [mkReviewHighlight
               (Checkpoints21.agent_id c +:+ "_" +:+ pretty (Checkpoints21.contrib_cycle c) +:+ "_main")
               (substring 0 500 (Checkpoints21.content c)) (8 # 10) "high_impact"]).
Proof.
  intros contributions l2 Hnone.
  assert (Hcl : match l2 with Some d => low_confidence_claims d | None => [] end = []).
  { destruct l2 as [d|]; [by apply Hnone | reflexivity]. }
  unfold extract_highlights. rewrite Hcl. split.
  - intros ->. reflexivity.
  - intros cs c ->. rewrite last_snoc. rewrite make_highlight_ok; [reflexivity | |].
    + pose proof (substring0_length 500 (Checkpoints21.content c)). lia.
    + split; discriminate.
Qed.

Lemma extract_highlights_fallback_witness :
  extract_highlights [] None = None /\
  extract_highlights [Checkpoints21.mkAgentContribution "Gubernator" "Evaluation text" "Evaluation" 2 "r"]
    (Some (mkLayer2Data (9 # 10) []))
  = Some [mkReviewHighlight "Gubernator_2_main" "Evaluation text" (8 # 10) "high_impact"].
Proof.
  split.
  - exact (proj1 (extract_highlights_fallback [] None (fun d H => ltac:(discriminate H))) eq_refl).
  - rewrite (proj2 (extract_highlights_fallback
                      [Checkpoints21.mkAgentContribution "Gubernator" "Evaluation text" "Evaluation" 2 "r"]
                      (Some (mkLayer2Data (9 # 10) []))
                      (fun d H => ltac:(injection H as <-; reflexivity))) []
               (Checkpoints21.mkAgentContribution "Gubernator" "Evaluation text" "Evaluation" 2 "r")
               eq_refl).
    reflexivity.
Defined.

End ReviewExtras.

(* ------------------------------------------------------------------ *)
(** ** Debate loops of the three graphs *)
(* ------------------------------------------------------------------ *)

Module LoopFacts.
Import GraphV3 GraphV3Loop.

Section Facts.
Variable handler :
  CheckpointType -> DebateStateHITL -> option Layer2Data -> option string -> HumanFeedback.

(** What a checkpoint node of [graph_hitl_v3] changes once merged: either
    it is skipped (observer mode, not pre-synthesis) and nothing changes,
    or the handler's feedback is appended, a [REVISE] increments
    [revision_count] and a [REJECT] clears [final_plan]. *)
Lemma run_checkpoint_spec (t : CheckpointType) (s : DebateStateHITL) :
  let s' := run_checkpoint handler t s in
  cycle_count s' = cycle_count s /\ current_consensus_score s' = current_consensus_score s /\
  intervention_mode s' = intervention_mode s /\
  max_revisions_per_cycle s' = max_revisions_per_cycle s /\
  ((intervention_mode s = OBSERVER /\ human_feedback s' = human_feedback s /\
    revision_count s' = revision_count s /\ final_plan s' = final_plan s) \/
   (exists l2 po,
      human_feedback s' = human_feedback s ++ [handler t s l2 po] /\
      revision_count s' = (match fb_decision (handler t s l2 po) with
                           | REVISE => revision_count s + 1 | _ => revision_count s end)%Z /\
      final_plan s' = (match fb_decision (handler t s l2 po) with
                       | REJECT => None | _ => final_plan s end))).
Proof.
  unfold run_checkpoint, checkpoint_node.
  destruct (bool_decide (intervention_mode_value (intervention_mode s) = "observer")
            && negb (bool_decide (t = PRE_SYNTHESIS))) eqn:E.
  - apply andb_prop in E as [E1 _]. apply bool_decide_eq_true in E1.
    simpl. do 4 (split; [reflexivity |]). left.
    split; [destruct (intervention_mode s); try discriminate E1; reflexivity |].
    split; [apply app_nil_r | split; reflexivity].
  - cbv zeta.
    match goal with |- context [handler t s ?l ?p] =>
      remember l as L eqn:EL; remember p as P eqn:EP end.
    destruct (fb_decision (handler t s L P)) eqn:Ed; simpl;
      (do 4 (split; [reflexivity |])); right; exists L, P; rewrite Ed;
      (split; [reflexivity | split; reflexivity]).
Qed.

Lemma run_checkpoint_non_observer (t : CheckpointType) (s : DebateStateHITL) :
  intervention_mode s <> OBSERVER ->
  let s' := run_checkpoint handler t s in
  cycle_count s' = cycle_count s /\ current_consensus_score s' = current_consensus_score s /\
  intervention_mode s' = intervention_mode s /\
  max_revisions_per_cycle s' = max_revisions_per_cycle s /\
  exists l2 po,
    human_feedback s' = human_feedback s ++ [handler t s l2 po] /\
    revision_count s' = (match fb_decision (handler t s l2 po) with
                         | REVISE => revision_count s + 1 | _ => revision_count s end)%Z /\
    final_plan s' = (match fb_decision (handler t s l2 po) with
                     | REJECT => None | _ => final_plan s end).
Proof.
  intros Hm. destruct (run_checkpoint_spec t s) as (H1 & H2 & H3 & H4 & [[? _] | H5]);
    [contradiction | auto 6].
Qed.

End Facts.

Lemma last_app_singleton {A} (l : list A) (x : A) : last (l ++ [x]) = Some x.
Proof. apply last_snoc. Qed.

Lemma routing_not_syntezator settings st :
  Routing.last_feedback_reject st = false ->
  Routing.should_continue_after_gubernator settings st <> Routing.syntezator.
Proof.
  intros H. unfold Routing.should_continue_after_gubernator. rewrite H.
  destruct (_ >=? _)%Z; [discriminate |].
  destruct (Qle_bool _ _); [discriminate |].
  destruct (_ >=? _)%Z; discriminate.
Qed.

End LoopFacts.

Module LoopExtras.
Import Routing.

(** [run_v2] (the loop of [graph_hitl_v2]) stops at the first cycle, from
    the start cycle on, where the cap [max_cycles] is reached or the
    threshold is met with [min_cycles] reached: at every earlier cycle
    neither holds. *)
Theorem run_v2_stops_at_first_exit_cycle :
  forall (fuel : nat) (settings : DebateConfig) (scores : Z -> Q) (c c' : Z),
    run_v2 fuel settings scores c = Some c' ->
    (c <= c' < c + Z.of_nat fuel)%Z /\
    ((max_cycles settings <= c')%Z \/
     (consensus_threshold settings <= scores c' /\ (min_cycles settings <= c')%Z))%Q /\
    forall k, (c <= k < c')%Z ->
      (k < max_cycles settings)%Z /\
      ~ ((consensus_threshold settings <= scores k)%Q /\ (min_cycles settings <= k)%Z).
Proof.
  induction fuel as [|f IH]; intros settings scores c c'; simpl; [discriminate |].
  unfold should_continue at 1.
  destruct (Z.geb_spec c (max_cycles settings)) as [Hmax | Hmax].
  - intros [= <-]. split; [lia |]. split; [left; lia | intros k Hk; lia].
  - destruct (Qle_bool (consensus_threshold settings) (scores c)) eqn:Ht.
    + apply Qle_bool_iff in Ht.
      destruct (Z.geb_spec c (min_cycles settings)) as [Hmin | Hmin].
      * intros [= <-]. split; [lia |]. split; [right; split; [exact Ht | lia] | intros k Hk; lia].
      * intros Hrun. destruct (IH _ _ _ _ Hrun) as (Hb & Hx & Hbefore).
        unfold increment_cycle in *.
        split; [lia |]. split; [exact Hx |].
        intros k Hk. destruct (Z.eq_dec k c) as [-> | Hne].
        -- split; [lia | intros [_ ?]; lia].
        -- apply Hbefore. lia.
    + intros Hrun. destruct (IH _ _ _ _ Hrun) as (Hb & Hx & Hbefore).
      unfold increment_cycle in *.
      split; [lia |]. split; [exact Hx |].
      intros k Hk. destruct (Z.eq_dec k c) as [-> | Hne].
      * split; [lia |]. intros [Hq _]. apply Qle_bool_iff in Hq. congruence.
      * apply Hbefore. lia.
Qed.

Lemma run_v2_stops_at_first_exit_cycle_witness :
  run_v2 5 (mkDebateConfig (7 # 10) 5 2) (fun c => if (c =? 3)%Z then 9 # 10 else 1 # 10) 1 = Some 3%Z /\
  (3 < max_cycles (mkDebateConfig (7 # 10) 5 2))%Z.
Proof.
  assert (H : run_v2 5 (mkDebateConfig (7 # 10) 5 2)
                (fun c => if (c =? 3)%Z then 9 # 10 else 1 # 10) 1 = Some 3%Z)
    by (vm_compute; reflexivity).
  split; [exact H |].
  destruct (run_v2_stops_at_first_exit_cycle _ _ _ _ _ H) as (_ & [Hc | _] & _); simpl in *; lia.
Defined.

(** [run_v1] (the loop of [graph.py], with its hard-coded threshold 0.7
    and cap 5) stops at the first cycle where the cap is reached or the
    score meets 0.7: every earlier cycle is below both. *)
Theorem run_v1_stops_at_first_exit_cycle :
  forall (fuel : nat) (scores : Z -> Q) (c c' : Z),
    run_v1 fuel scores c = Some c' ->
    (c <= c' < c + Z.of_nat fuel)%Z /\
    ((graph_max_cycles <= c')%Z \/ (graph_consensus_threshold <= scores c')%Q) /\
    forall k, (c <= k < c')%Z ->
      (k < graph_max_cycles)%Z /\ (scores k < graph_consensus_threshold)%Q.
Proof.
  induction fuel as [|f IH]; intros scores c c'; simpl; [discriminate |].
  unfold should_continue_debate at 1.
  destruct (Z.geb_spec c graph_max_cycles) as [Hmax | Hmax].
  - intros [= <-]. split; [lia |]. split; [left; lia | intros k Hk; lia].
  - destruct (Qle_bool graph_consensus_threshold (scores c)) eqn:Ht.
    + intros [= <-]. apply Qle_bool_iff in Ht.
      split; [lia |]. split; [right; exact Ht | intros k Hk; lia].
    + intros Hrun. destruct (IH _ _ _ Hrun) as (Hb & Hx & Hbefore).
      unfold increment_cycle in *.
      split; [lia |]. split; [exact Hx |].
      intros k Hk. destruct (Z.eq_dec k c) as [-> | Hne].
      * split; [lia |]. apply Qnot_le_lt. intros Hq. apply Qle_bool_iff in Hq. congruence.
      * apply Hbefore. lia.
Qed.

Lemma run_v1_stops_at_first_exit_cycle_witness :
  run_v1 5 (fun c => if (c =? 2)%Z then 8 # 10 else 1 # 10) 1 = Some 2%Z /\
  (1 # 10 < graph_consensus_threshold)%Q.
Proof.
  assert (H : run_v1 5 (fun c => if (c =? 2)%Z then 8 # 10 else 1 # 10) 1 = Some 2%Z)
    by (vm_compute; reflexivity).
  split; [exact H |].
  destruct (run_v1_stops_at_first_exit_cycle _ _ _ _ H) as (_ & _ & Hb).
  exact (proj2 (Hb 1%Z ltac:(lia))).
Defined.

End LoopExtras.

Module LoopV3Facts.
Import GraphV3 GraphV3Loop LoopFacts.

Lemma last_In {A} (l : list A) (x : A) : last l = Some x -> In x l.
Proof.
  induction l as [|y l IH]; [discriminate |].
  destruct l as [|z l]; simpl.
  - intros [= ->]. by left.
  - intros H. right. apply IH. exact H.
Qed.

Section Round.
Variable handler :
  CheckpointType -> DebateStateHITL -> option Layer2Data -> option string -> HumanFeedback.
Variable kat scep : DebateStateHITL -> AgentContribution.
Variable gub : DebateStateHITL -> AgentContribution * Q.

Definition pre_gubernator (s : DebateStateHITL) : DebateStateHITL :=
  sceptyk_node scep (run_checkpoint handler POST_THESIS (katalizator_node kat s)).

Lemma debate_round_route settings s :
  fst (debate_round handler kat scep gub settings s)
  = Routing.should_continue_after_gubernator settings
      (routing_view (snd (debate_round handler kat scep gub settings s))).
Proof. reflexivity. Qed.

Lemma gubernator_node_fields s :
  cycle_count (gubernator_node gub s) = cycle_count s /\
  current_consensus_score (gubernator_node gub s) = snd (gub s) /\
  intervention_mode (gubernator_node gub s) = intervention_mode s /\
  max_revisions_per_cycle (gubernator_node gub s) = max_revisions_per_cycle s /\
  human_feedback (gubernator_node gub s) = human_feedback s /\
  revision_count (gubernator_node gub s) = revision_count s /\
  final_plan (gubernator_node gub s) = final_plan s.
Proof. unfold gubernator_node. destruct (gub s). repeat split. Qed.

(** The fields of the state after one round, in terms of the state before. *)
Lemma debate_round_fields settings s :
  let s1 := run_checkpoint handler POST_THESIS (katalizator_node kat s) in
  let s2 := snd (debate_round handler kat scep gub settings s) in
  cycle_count s2 = cycle_count s /\
  current_consensus_score s2 = snd (gub (pre_gubernator s)) /\
  intervention_mode s2 = intervention_mode s /\
  max_revisions_per_cycle s2 = max_revisions_per_cycle s /\
  s2 = run_checkpoint handler POST_EVALUATION (gubernator_node gub (sceptyk_node scep s1)) /\
  cycle_count s1 = cycle_count s /\ intervention_mode s1 = intervention_mode s /\
  max_revisions_per_cycle s1 = max_revisions_per_cycle s.
Proof.
  cbv zeta. unfold debate_round. simpl snd.
  destruct (run_checkpoint_spec handler POST_THESIS (katalizator_node kat s))
    as (a1 & b1 & c1 & d1 & _).
  set (g := gubernator_node gub (sceptyk_node scep (run_checkpoint handler POST_THESIS (katalizator_node kat s)))).
  destruct (gubernator_node_fields (sceptyk_node scep (run_checkpoint handler POST_THESIS (katalizator_node kat s))))
    as (a2 & b2 & c2 & d2 & _).
  destruct (run_checkpoint_spec handler POST_EVALUATION g) as (a3 & b3 & c3 & d3 & _).
  rewrite a3, b3, c3, d3. unfold g. rewrite a2, b2, c2, d2.
  repeat split; first [reflexivity | exact a1 | exact c1 | exact d1].
Qed.

End Round.
End LoopV3Facts.

Module LoopV3Extras.
Import GraphV3 GraphV3Loop LoopFacts LoopV3Facts.

Section Helpers.
Variable handler :
  CheckpointType -> DebateStateHITL -> option Layer2Data -> option string -> HumanFeedback.

Lemma checkpoint_keeps_no_reject (t : CheckpointType) (st : DebateStateHITL) :
  (forall t st l2 po, fb_decision (handler t st l2 po) <> REVISE /\
                      fb_decision (handler t st l2 po) <> REJECT) ->
  (forall fb, In fb (human_feedback st) -> fb_decision fb <> REJECT) ->
  (forall fb, In fb (human_feedback (run_checkpoint handler t st)) -> fb_decision fb <> REJECT) /\
  revision_count (run_checkpoint handler t st) = revision_count st.
Proof.
  intros Hd Hhf.
  destruct (run_checkpoint_spec handler t st)
    as (_ & _ & _ & _ & [(_ & E1 & E2 & _) | (l2 & po & E1 & E2 & _)]);
    rewrite E1, E2; [split; [exact Hhf | reflexivity] |].
  destruct (Hd t st l2 po) as [Hr Hj].
  split.
  - intros fb Hin. apply in_app_iff in Hin as [Hin | [<- | []]]; [exact (Hhf fb Hin) | exact Hj].
  - destruct (fb_decision _); congruence.
Qed.

Lemma checkpoint_revise (t : CheckpointType) (st : DebateStateHITL) :
  intervention_mode st <> OBSERVER ->
  (forall t st l2 po, fb_decision (handler t st l2 po) = REVISE) ->
  revision_count (run_checkpoint handler t st) = (revision_count st + 1)%Z /\
  exists fb, human_feedback (run_checkpoint handler t st) = human_feedback st ++ [fb] /\
             fb_decision fb = REVISE.
Proof.
  intros Hm Hd.
  destruct (run_checkpoint_non_observer handler t st Hm) as (_ & _ & _ & _ & l2 & po & E1 & E2 & _).
  rewrite E1, E2, Hd. split; [reflexivity |]. eexists. split; [reflexivity | apply Hd].
Qed.

End Helpers.

Lemma run_v3_S handler kat scep gub n settings s :
  run_v3 handler kat scep gub (S n) settings s =
  let '(r, s') := debate_round handler kat scep gub settings s in
  match r with
  | Routing.katalizator => run_v3 handler kat scep gub n settings s'
  | _ => Some (r, s')
  end.
Proof. reflexivity. Qed.

(** No node of the [graph_hitl_v3] debate loop increments [cycle_count]
    (the graph has no [increment_cycle] node).  Hence, from a state whose
    [cycle_count] is below [max_cycles], whose [revision_count] is below
    [max_revisions_per_cycle] and whose feedback so far has no [REJECT],
    when the human never answers [REVISE] or [REJECT] and the Gubernator's
    score always stays below the threshold, the conditional edge after
    [checkpoint_post_evaluation] routes back to [katalizator] forever: no
    number of rounds reaches the pre-synthesis checkpoint or the
    Syntezator. *)
Theorem v3_loop_never_advances_cycle :
  forall (handler : CheckpointType -> DebateStateHITL -> option Layer2Data -> option string -> HumanFeedback)
         (kat scep : DebateStateHITL -> AgentContribution)
         (gub : DebateStateHITL -> AgentContribution * Q) (settings : Routing.DebateConfig),
    (forall s, cycle_count (snd (debate_round handler kat scep gub settings s)) = cycle_count s) /\
    forall s,
      (forall t st l2 po, fb_decision (handler t st l2 po) <> REVISE /\
                          fb_decision (handler t st l2 po) <> REJECT) ->
      (forall st, snd (gub st) < Routing.consensus_threshold settings)%Q ->
      (forall fb, In fb (human_feedback s) -> fb_decision fb <> REJECT) ->
      (revision_count s < max_revisions_per_cycle s)%Z ->
      (cycle_count s < Routing.max_cycles settings)%Z ->
      forall n, run_v3 handler kat scep gub n settings s = None.
Proof.
  intros handler kat scep gub settings.
  split; [intros s; exact (proj1 (debate_round_fields handler kat scep gub settings s)) |].
  intros s Hd Hg Hhf Hrc Hcyc n. revert s Hhf Hrc Hcyc.
  induction n as [|n IH]; intros s Hhf Hrc Hcyc; [reflexivity |].
  rewrite run_v3_S. destruct (debate_round handler kat scep gub settings s) as [r s2] eqn:Er.
  pose proof (debate_round_route handler kat scep gub settings s) as Hr.
  destruct (debate_round_fields handler kat scep gub settings s)
    as (Hc2 & Hq2 & Hm2 & Hx2 & Hs2 & Hc1 & Hm1 & Hx1).
  rewrite Er in Hr, Hc2, Hq2, Hm2, Hx2, Hs2. cbn [fst snd] in Hr, Hc2, Hq2, Hm2, Hx2, Hs2.
  set (s1 := run_checkpoint handler POST_THESIS (katalizator_node kat s)) in *.
  destruct (checkpoint_keeps_no_reject handler POST_THESIS (katalizator_node kat s) Hd Hhf)
    as [Hhf1 Hrc1].
  set (g := gubernator_node gub (sceptyk_node scep s1)) in *.
  destruct (gubernator_node_fields gub (sceptyk_node scep s1)) as (_ & _ & _ & _ & Hhfg & Hrcg & _).
  fold g in Hhfg, Hrcg.
  destruct (checkpoint_keeps_no_reject handler POST_EVALUATION g Hd) as [Hhf2 Hrc2];
    [rewrite Hhfg; exact Hhf1 |].
  rewrite <- Hs2 in Hhf2, Hrc2.
  rewrite Hrcg in Hrc2. change (revision_count (sceptyk_node scep s1)) with (revision_count s1) in Hrc2.
  fold s1 in Hrc1. change (revision_count (katalizator_node kat s)) with (revision_count s) in Hrc1.
  assert (Hrej : Routing.last_feedback_reject (routing_view s2) = false).
  { unfold routing_view. cbn [Routing.last_feedback_reject].
    destruct (last (human_feedback s2)) as [fb|] eqn:El; [| reflexivity].
    apply last_In in El. specialize (Hhf2 fb El).
    destruct (fb_decision fb); congruence. }
  assert (Hk : r = Routing.katalizator).
  { rewrite Hr. unfold Routing.should_continue_after_gubernator. rewrite Hrej.
    unfold routing_view. cbn [Routing.revision_count Routing.max_revisions_per_cycle
                              Routing.current_consensus_score Routing.cycle_count].
    destruct (Z.geb_spec (revision_count s2) (max_revisions_per_cycle s2)); [lia |].
    destruct (Qle_bool _ _) eqn:Eq.
    - apply Qle_bool_iff in Eq. rewrite Hq2 in Eq. specialize (Hg (pre_gubernator handler kat scep s)).
      exfalso. apply (Qlt_not_le _ _ Hg). exact Eq.
    - destruct (Z.geb_spec (cycle_count s2) (Routing.max_cycles settings)); [lia | reflexivity]. }
  subst r. try rewrite <- Hs2. rewrite Hk. apply IH; [exact Hhf2 | lia | lia].
Qed.

Lemma v3_loop_never_advances_cycle_witness :
  let handler := fun (_ : CheckpointType) (_ : DebateStateHITL) (_ : option Layer2Data) (_ : option string) =>
                   mkHumanFeedback POST_THESIS APPROVE "" [] [] in
  let c := Checkpoints21.mkAgentContribution "Katalizator" "text" "Thesis" 1 "r" in
  let settings := Routing.mkDebateConfig (7 # 10) 5 1 in
  let s := mkDebateStateHITL "m" [] 1 0 None None [] None REVIEWER 0 ∅ true 3 in
  run_v3 handler (fun _ => c) (fun _ => c) (fun _ => (c, 1 # 2)) 4 settings s = None.
Proof.
  intros handler c settings s.
  apply (proj2 (v3_loop_never_advances_cycle handler (fun _ => c) (fun _ => c) (fun _ => (c, 1 # 2)) settings) s).
  - intros t st l2 po. split; discriminate.
  - intros st. reflexivity.
  - intros fb [].
  - simpl. lia.
  - simpl. lia.
Defined.

Lemma round_all_revise handler kat scep gub settings s :
  intervention_mode s <> OBSERVER ->
  (forall t st l2 po, fb_decision (handler t st l2 po) = REVISE) ->
  let s2 := snd (debate_round handler kat scep gub settings s) in
  revision_count s2 = (revision_count s + 2)%Z /\
  intervention_mode s2 = intervention_mode s /\
  max_revisions_per_cycle s2 = max_revisions_per_cycle s /\
  exists fb, last (human_feedback s2) = Some fb /\ fb_decision fb = REVISE.
Proof.
  intros Hm Hd. cbv zeta.
  destruct (debate_round_fields handler kat scep gub settings s)
    as (_ & _ & Hm2 & Hx2 & Hs2 & _ & Hm1 & _).
  set (s2 := snd (debate_round handler kat scep gub settings s)) in *.
  set (s1 := run_checkpoint handler POST_THESIS (katalizator_node kat s)) in *.
  destruct (checkpoint_revise handler POST_THESIS (katalizator_node kat s) Hm Hd) as [Hrc1 _].
  fold s1 in Hrc1. change (revision_count (katalizator_node kat s)) with (revision_count s) in Hrc1.
  set (g := gubernator_node gub (sceptyk_node scep s1)) in *.
  destruct (gubernator_node_fields gub (sceptyk_node scep s1)) as (_ & _ & Hmg & _ & _ & Hrcg & _).
  fold g in Hmg, Hrcg.
  assert (Hmg' : intervention_mode g <> OBSERVER) by (rewrite Hmg; change (intervention_mode (sceptyk_node scep s1)) with (intervention_mode s1); rewrite Hm1; exact Hm).
  destruct (checkpoint_revise handler POST_EVALUATION g Hmg' Hd) as [Hrc2 (fb & Hhf2 & Hfb)].
  rewrite <- Hs2 in Hrc2, Hhf2. rewrite Hrcg in Hrc2.
  change (revision_count (sceptyk_node scep s1)) with (revision_count s1) in Hrc2.
  split; [lia |]. split; [exact Hm2 |]. split; [exact Hx2 |].
  exists fb. rewrite Hhf2, last_snoc. split; [reflexivity | exact Hfb].
Qed.

(** In a [graph_hitl_v3] run outside observer mode where the human answers
    [REVISE] at every checkpoint, each round adds exactly 2 to
    [revision_count] (never reset), keeps the intervention mode and the
    revision cap, and leaves a [REVISE] as the last feedback (never a
    [REJECT]); so the run reaches the pre-synthesis checkpoint (never the
    Syntezator directly) within [n] rounds once
    [revision_count + 2 n >= max_revisions_per_cycle]. *)
Theorem v3_always_revise_reaches_pre_synthesis :
  forall (handler : CheckpointType -> DebateStateHITL -> option Layer2Data -> option string -> HumanFeedback)
         (kat scep : DebateStateHITL -> AgentContribution)
         (gub : DebateStateHITL -> AgentContribution * Q) (settings : Routing.DebateConfig),
    (forall t st l2 po, fb_decision (handler t st l2 po) = REVISE) ->
    (forall s : DebateStateHITL,
       intervention_mode s <> OBSERVER ->
       let s2 := snd (debate_round handler kat scep gub settings s) in
       revision_count s2 = (revision_count s + 2)%Z /\
       intervention_mode s2 = intervention_mode s /\
       max_revisions_per_cycle s2 = max_revisions_per_cycle s /\
       exists fb, last (human_feedback s2) = Some fb /\ fb_decision fb = REVISE) /\
    (forall (n : nat) (s : DebateStateHITL),
       (0 < n)%nat ->
       intervention_mode s <> OBSERVER ->
       (max_revisions_per_cycle s <= revision_count s + 2 * Z.of_nat n)%Z ->
       exists s', run_v3 handler kat scep gub n settings s = Some (Routing.checkpoint_pre_synthesis, s')).
Proof.
  intros handler kat scep gub settings Hd. split.
  { intros s Hm. exact (round_all_revise handler kat scep gub settings s Hm Hd). }
  intros n. induction n as [|n IH]; intros s Hn Hm Hcap; [lia |].
  rewrite run_v3_S.
  destruct (round_all_revise handler kat scep gub settings s Hm Hd)
    as (Hrc2 & Hm2 & Hx2 & fb & Hl2 & Hfb).
  pose proof (debate_round_route handler kat scep gub settings s) as Hr.
  destruct (debate_round handler kat scep gub settings s) as [r s2] eqn:Er.
  cbn [fst snd] in Hr, Hrc2, Hm2, Hx2, Hl2.
  assert (Hrej : Routing.last_feedback_reject (routing_view s2) = false).
  { unfold routing_view. cbn [Routing.last_feedback_reject]. rewrite Hl2, Hfb. reflexivity. }
  rewrite Hr. unfold Routing.should_continue_after_gubernator. rewrite Hrej.
  unfold routing_view. cbn [Routing.revision_count Routing.max_revisions_per_cycle
                            Routing.current_consensus_score Routing.cycle_count].
  destruct (Z.geb_spec (revision_count s2) (max_revisions_per_cycle s2)); [eexists; reflexivity |].
  destruct (Qle_bool _ _); [eexists; reflexivity |].
  destruct (Z.geb_spec (cycle_count s2) (Routing.max_cycles settings)); [eexists; reflexivity |].
  apply IH; [lia | rewrite Hm2; exact Hm | lia].
Qed.

Lemma v3_always_revise_reaches_pre_synthesis_witness :
  let handler := fun (_ : CheckpointType) (_ : DebateStateHITL) (_ : option Layer2Data) (_ : option string) =>
                   mkHumanFeedback POST_THESIS REVISE "Please expand the analysis" [] [] in
  let c := Checkpoints21.mkAgentContribution "Katalizator" "text" "Thesis" 1 "r" in
  let settings := Routing.mkDebateConfig (7 # 10) 5 1 in
  let s := mkDebateStateHITL "m" [] 1 0 None None [] None COLLABORATOR 0 ∅ true 3 in
  revision_count (snd (debate_round handler (fun _ => c) (fun _ => c) (fun _ => (c, 1 # 2)) settings s)) = 2%Z /\
  exists s', run_v3 handler (fun _ => c) (fun _ => c) (fun _ => (c, 1 # 2)) 2 settings s
             = Some (Routing.checkpoint_pre_synthesis, s').
Proof.
  intros handler c settings s.
  destruct (v3_always_revise_reaches_pre_synthesis handler (fun _ => c) (fun _ => c)
              (fun _ => (c, 1 # 2)) settings (fun t st l2 po => eq_refl)) as [Hround Hrun].
  split.
  - exact (proj1 (Hround s ltac:(discriminate))).
  - apply Hrun; [lia | discriminate | simpl; lia].
Defined.

(** Outside observer mode, a [REJECT] at the post-evaluation checkpoint of
    [graph_hitl_v3] ends the debate loop: the round routes straight to the
    Syntezator (skipping the pre-synthesis checkpoint) with [final_plan]
    cleared to [None]. *)
Theorem v3_reject_at_post_evaluation_goes_to_syntezator :
  forall (handler : CheckpointType -> DebateStateHITL -> option Layer2Data -> option string -> HumanFeedback)
         (kat scep : DebateStateHITL -> AgentContribution)
         (gub : DebateStateHITL -> AgentContribution * Q) (settings : Routing.DebateConfig)
         (s : DebateStateHITL) (n : nat),
    intervention_mode s <> OBSERVER ->
    (forall st l2 po, fb_decision (handler POST_EVALUATION st l2 po) = REJECT) ->
    exists s', run_v3 handler kat scep gub (S n) settings s = Some (Routing.syntezator, s') /\
               final_plan s' = None.
Proof.
  intros handler kat scep gub settings s n Hm Hd.
  rewrite run_v3_S. destruct (debate_round handler kat scep gub settings s) as [r s2] eqn:Er.
  pose proof (debate_round_route handler kat scep gub settings s) as Hr.
  destruct (debate_round_fields handler kat scep gub settings s)
    as (_ & _ & _ & _ & Hs2 & _ & Hm1 & _).
  rewrite Er in Hr, Hs2. cbn [fst snd] in Hr, Hs2.
  set (s1 := run_checkpoint handler POST_THESIS (katalizator_node kat s)) in *.
  set (g := gubernator_node gub (sceptyk_node scep s1)) in *.
  destruct (gubernator_node_fields gub (sceptyk_node scep s1)) as (_ & _ & Hmg & _).
  fold g in Hmg.
  assert (Hmg' : intervention_mode g <> OBSERVER) by (rewrite Hmg; change (intervention_mode (sceptyk_node scep s1)) with (intervention_mode s1); rewrite Hm1; exact Hm).
  destruct (run_checkpoint_non_observer handler POST_EVALUATION g Hmg')
    as (_ & _ & _ & _ & l2 & po & Hhf & _ & Hfp).
  rewrite <- Hs2 in Hhf, Hfp. rewrite Hd in Hfp.
  assert (Hsyn : r = Routing.syntezator).
  { rewrite Hr. unfold Routing.should_continue_after_gubernator, routing_view.
    cbn [Routing.last_feedback_reject]. rewrite Hhf, last_snoc, Hd. reflexivity. }
  subst r. rewrite Hsyn. exists s2. split; [reflexivity | exact Hfp].
Qed.

Lemma v3_reject_at_post_evaluation_goes_to_syntezator_witness :
  let handler := fun (t : CheckpointType) (_ : DebateStateHITL) (_ : option Layer2Data) (_ : option string) =>
                   mkHumanFeedback t (match t with POST_EVALUATION => REJECT | _ => APPROVE end) "" [] [] in
  let c := Checkpoints21.mkAgentContribution "Katalizator" "text" "Thesis" 1 "r" in
  let settings := Routing.mkDebateConfig (7 # 10) 5 1 in
  let s := mkDebateStateHITL "m" [] 1 0 (Some "draft") None [] None REVIEWER 0 ∅ true 3 in
  exists s', run_v3 handler (fun _ => c) (fun _ => c) (fun _ => (c, 1 # 2)) 1 settings s
             = Some (Routing.syntezator, s') /\ final_plan s' = None.
Proof.
  intros handler c settings s.
  apply (v3_reject_at_post_evaluation_goes_to_syntezator handler _ _ _ settings s 0).
  - discriminate.
  - intros st l2 po. reflexivity.
Defined.

End LoopV3Extras.
